(** * vanity-eth: the WebGPU capability probe and the parameter optimizer

    A shallow embedding of [src/js/webgpu-checker.js] (the class
    [WebGPUCapabilityChecker]) and of [src/js/gpu-utils.js], with the parts
    of the status panel ([src/vue/WebGPUStatus.vue]) and of the page
    component that consume them, followed by the properties of the probe
    sequence, the tier classifier and the parameter derivation.

    Conventions of the embedding.
    - The checker's [this.capabilities] object is a record that is passed
      through the methods explicitly: a method is a function from the record
      before the call to the record after it.
    - The browser objects the checker talks to ([window], [navigator],
      [navigator.gpu], a [GPUAdapter], a [GPUDevice]) are plain data: every
      method of such an object is called at most once in a run, so it is
      represented by the outcome of that call, which either returns a value
      or throws an error carrying a message.
    - The performance tier is the five-valued enumeration the classifier
      returns; an absent object property ([undefined]) is [None].
    - Device limits are WebGPU's unsigned integers, hence [N]; a limit that
      is [undefined] is an absent key of the map, and arithmetic on it gives
      [NaN], written [None].
    - The speed-up estimate mixes integers with the literal [0.5]; it is
      computed over the rationals [Q], which is exact where JavaScript's
      doubles are (every thread count a browser can report).
    - A parsed browser version is a JavaScript Number: the integer the
      digits denote, rounded to the nearest double, and printed the way
      JavaScript prints a Number.
    - [runFullCheck] is one run on a freshly constructed checker; two
      overlapping runs on the same checker would share
      [this.capabilities] and are not described here. *)

From Stdlib Require Import Ascii String NArith ZArith QArith Qminmax Qround Lqa.
From stdpp Require Import gmap strings list fin_maps pretty.

Local Open Scope string_scope.
#[local] Set Warnings "-clear-no-such-hyp".

(** ** JavaScript values and operators used by the two files *)

Module JS.

(** The outcome of a call that may throw; [message] is [error.message]. *)
Inductive Completion (A : Type) : Type :=
| Returns (value : A)
| Throws (message : string).
Arguments Returns {A} value.
Arguments Throws {A} message.

(** A number read from an object property: [None] is [undefined], and
    [NaN] once arithmetic has been applied to it. *)
Abbreviation number := (option N).

(** Truthiness of a number: [0], [NaN] and [undefined] are falsy. *)
Definition truthy (x : number) : bool :=
  match x with
  | Some n => negb (n =? 0)%N
  | None => false
  end.

(** [x >= k]: a comparison with [undefined] (converted to [NaN]) is false. *)
Definition ge (x : number) (k : N) : bool :=
  match x with
  | Some n => (k <=? n)%N
  | None => false
  end.

(** [Math.floor(x / d)] for a literal divisor [d]. *)
Definition floor_div (x : number) (d : N) : number :=
  (fun n => (n / d)%N) <$> x.

(** [x || d] where [d] is a numeric literal. *)
Definition or_else (x : number) (d : N) : N :=
  match x with
  | Some n => if (n =? 0)%N then d else n
  | None => d
  end.

(** [Math.min(a, b)] on two numbers that are not [NaN]. *)
Definition Math_min (a b : N) : N := N.min a b.

(** [x || d] on rationals, [x] being a possibly missing table entry. *)
Definition or_elseQ (x : option Q) (d : Q) : Q :=
  match x with
  | Some q => if Qeq_bool q 0 then d else q
  | None => d
  end.

(** [Math.max(a, b)] on rationals. *)
Definition Math_max (a b : Q) : Q := if Qle_bool a b then b else a.

(** [a < b] on rationals. *)
Definition ltQ (a b : Q) : bool := negb (Qle_bool b a).

(** [x || d] on strings: the empty string and [undefined] are falsy. *)
Definition or_elseS (x : option string) (d : string) : string :=
  match x with
  | Some (String a s) => String a s
  | Some EmptyString => d
  | None => d
  end.

(** [s.includes(sub)]. *)
Fixpoint includes (s sub : string) {struct s} : bool :=
  String.prefix sub s ||
  match s with
  | EmptyString => false
  | String _ s' => includes s' sub
  end.

(** The character class [\d]. *)
Definition is_digit (a : ascii) : bool :=
  let n := N_of_ascii a in (48 <=? n)%N && (n <=? 57)%N.

(** The longest run of digits at the start of [s], what [(\d+)] captures
    once the regular expression has been anchored. *)
Fixpoint take_digits (s : string) : string :=
  match s with
  | String a s' => if is_digit a then String a (take_digits s') else EmptyString
  | EmptyString => EmptyString
  end.

Fixpoint drop_chars (n : nat) (s : string) : string :=
  match n, s with
  | O, _ => s
  | S n', String _ s' => drop_chars n' s'
  | S _, EmptyString => EmptyString
  end.

(** [s.match(/tag(\d+)/)] for a literal [tag]: the capture group of the
    leftmost position at which [tag] is followed by at least one digit, or
    [None] ([null]) when there is no such position. *)
Fixpoint match_digits_after (tag s : string) {struct s} : option string :=
  let here :=
    if String.prefix tag s
    then take_digits (drop_chars (String.length tag) s)
    else EmptyString in
  match here with
  | String _ _ => Some here
  | EmptyString =>
      match s with
      | EmptyString => None
      | String _ s' => match_digits_after tag s'
      end
  end.

(** [parseInt] on a string of decimal digits. *)
Fixpoint parse_digits (acc : N) (s : string) : N :=
  match s with
  | String a s' =>
      if is_digit a
      then parse_digits (10 * acc + (N_of_ascii a - 48))%N s'
      else acc
  | EmptyString => acc
  end.

(** The Number values [parseInt] can give on a run of digits: an integer
    that is not negative, or [Infinity]. *)
Inductive Natural : Type :=
| Finite (n : N)
| Infinity.

(** The Number value of a mathematical integer [n]: [n] itself below 2^53,
    beyond that the nearest integer with a 53-bit significand, a tie going
    to the even one, and [Infinity] from 2^1024 on. *)
Definition to_double (n : N) : Natural :=
  if (n <? 2 ^ 53)%N then Finite n else
  let e := (N.log2 n - 52)%N in
  let q := (n / 2 ^ e)%N in
  let r := (n mod 2 ^ e)%N in
  let half := (2 ^ (e - 1))%N in
  let q' := if (half <? r)%N || ((r =? half)%N && N.odd q)
            then (q + 1)%N else q in
  if (2 ^ 1024 <=? q' * 2 ^ e)%N then Infinity else Finite (q' * 2 ^ e)%N.

(** [parseInt] on a string of decimal digits: the Number value of the
    integer the digits denote. *)
Definition parseInt (s : string) : Natural := to_double (parse_digits 0%N s).

(** [x < k] for a Number literal [k]. *)
Definition lt_literal (x : Natural) (k : Q) : bool :=
  match x with
  | Finite n => ltQ (inject_Z (Z.of_N n)) k
  | Infinity => false
  end.

(** Whether the integer [c] has the Number value [x]. *)
Definition denotes (c x : N) : bool :=
  match to_double c with
  | Finite m => (m =? x)%N
  | Infinity => false
  end.

(** The integers with [k] significant decimal digits next to [x] that have
    the Number value [x], the nearer one first (on a tie the one whose
    last significant digit is even). *)
Definition shortest_at (x : N) (k : nat) : option N :=
  let unit := (10 ^ N.of_nat (String.length (pretty x) - k))%N in
  let lo := (x / unit * unit)%N in
  let hi := (lo + unit)%N in
  match denotes lo x, denotes hi x with
  | true, true =>
      Some (if (x - lo <? hi - x)%N then lo
            else if (hi - x <? x - lo)%N then hi
            else if N.even (x / unit) then lo else hi)
  | true, false => Some lo
  | false, true => Some hi
  | false, false => None
  end.

Fixpoint shortest_from (x : N) (k fuel : nat) : N :=
  match fuel with
  | O => x
  | S fuel' =>
      match shortest_at x k with
      | Some c => c
      | None => shortest_from x (S k) fuel'
      end
  end.

(** The decimal with the fewest significant digits that has the Number
    value [x]; seventeen digits always suffice. *)
Definition shortest (x : N) : N := shortest_from x 1 17.

Fixpoint strip_trailing_zeros (s : string) : string :=
  match s with
  | EmptyString => EmptyString
  | String a s' =>
      match strip_trailing_zeros s', Ascii.eqb a "0" with
      | EmptyString, true => EmptyString
      | t, _ => String a t
      end
  end.

(** [String(x)], as a template literal converts a Number: plain decimal
    up to twenty-one digits, exponent notation beyond. *)
Definition Number_toString (x : Natural) : string :=
  match x with
  | Infinity => "Infinity"
  | Finite n =>
      if (n <? 2 ^ 53)%N then pretty n else
      let digits := pretty (shortest n) in
      let exponent := pretty (N.of_nat (String.length digits - 1)) in
      if (String.length digits <=? 21)%nat then digits else
      match strip_trailing_zeros digits with
      | EmptyString => digits
      | String a EmptyString => String a ("e+" +:+ exponent)
      | String a rest => String a ("." +:+ rest +:+ "e+" +:+ exponent)
      end
  end.

(** [l.join(sep)] on an array of strings. *)
Fixpoint join (sep : string) (l : list string) : string :=
  match l with
  | [] => EmptyString
  | x :: rest =>
      match rest with
      | [] => x
      | _ :: _ => x +:+ sep +:+ join sep rest
      end
  end.

(** [Math.round(q)]: the nearest integer, halves going up. *)
Definition Math_round (q : Q) : Z := Qfloor (q + (1 # 2)).

End JS.

(** ** The browser objects the checker consumes *)

Module WebGPU.

(** [adapter.info]: each field may be unreported. *)
Record GPUAdapterInfo : Type := {
  info_vendor : option string;
  info_architecture : option string;
  info_device : option string;
  info_description : option string
}.

(** A [GPUDevice]: the outcome of [Array.from(device.features)] (it throws
    when the property is missing or not iterable), the outcome of reading
    the named limits off [device.limits] (it throws when the property is
    missing), and the outcomes of [createShaderModule] and
    [createComputePipeline] on the test shader. *)
Record GPUDevice : Type := {
  device_features : JS.Completion (list string);
  device_limits : JS.Completion (gmap string N);
  device_createShaderModule : JS.Completion unit;
  device_createComputePipeline : JS.Completion unit
}.

(** A [GPUAdapter]: its [info] and the outcome of [requestDevice()]
    ([None] for a falsy result). *)
Record GPUAdapter : Type := {
  adapter_info : option GPUAdapterInfo;
  adapter_requestDevice : JS.Completion (option GPUDevice)
}.

(** [navigator.gpu]: the outcome of [requestAdapter()]. *)
Record GPU : Type := {
  gpu_requestAdapter : JS.Completion (option GPUAdapter)
}.

(** [window.isSecureContext], [navigator.userAgent], [navigator.gpu]. *)
Record Environment : Type := {
  window_isSecureContext : bool;
  navigator_userAgent : string;
  navigator_gpu : option GPU
}.

End WebGPU.

Import WebGPU.

Inductive PerformanceTier : Type :=
| high
| medium
| low
| unknown
| unavailable.

(** ** webgpu-checker.js: class WebGPUCapabilityChecker *)

Module Checker.

(** [this.capabilities]. *)
Record Capabilities : Type := {
  available : bool;
  supported : bool;
  adapter : option GPUAdapter;
  device : option GPUDevice;
  reasons : list string;
  features : list string;
  limits : gmap string N;
  performanceInfo : gmap string string;
  errors : list string
}.

(** The object literal of the constructor and of the reset in
    [runFullCheck]. *)
Definition initial : Capabilities := {|
  available := false;
  supported := false;
  adapter := None;
  device := None;
  reasons := [];
  features := [];
  limits := ∅;
  performanceInfo := ∅;
  errors := []
|}.

(** Assignments to one property of [this.capabilities]. *)
Definition set_available (b : bool) (c : Capabilities) : Capabilities :=
  {| available := b; supported := supported c; adapter := adapter c;
     device := device c; reasons := reasons c; features := features c;
     limits := limits c; performanceInfo := performanceInfo c;
     errors := errors c |}.

Definition set_supported (b : bool) (c : Capabilities) : Capabilities :=
  {| available := available c; supported := b; adapter := adapter c;
     device := device c; reasons := reasons c; features := features c;
     limits := limits c; performanceInfo := performanceInfo c;
     errors := errors c |}.

Definition set_adapter (a : option GPUAdapter) (c : Capabilities) : Capabilities :=
  {| available := available c; supported := supported c; adapter := a;
     device := device c; reasons := reasons c; features := features c;
     limits := limits c; performanceInfo := performanceInfo c;
     errors := errors c |}.

Definition set_device (d : option GPUDevice) (c : Capabilities) : Capabilities :=
  {| available := available c; supported := supported c; adapter := adapter c;
     device := d; reasons := reasons c; features := features c;
     limits := limits c; performanceInfo := performanceInfo c;
     errors := errors c |}.

Definition set_reasons (r : list string) (c : Capabilities) : Capabilities :=
  {| available := available c; supported := supported c; adapter := adapter c;
     device := device c; reasons := r; features := features c;
     limits := limits c; performanceInfo := performanceInfo c;
     errors := errors c |}.

Definition set_features (f : list string) (c : Capabilities) : Capabilities :=
  {| available := available c; supported := supported c; adapter := adapter c;
     device := device c; reasons := reasons c; features := f;
     limits := limits c; performanceInfo := performanceInfo c;
     errors := errors c |}.

Definition set_limits (l : gmap string N) (c : Capabilities) : Capabilities :=
  {| available := available c; supported := supported c; adapter := adapter c;
     device := device c; reasons := reasons c; features := features c;
     limits := l; performanceInfo := performanceInfo c;
     errors := errors c |}.

Definition set_performanceInfo (p : gmap string string) (c : Capabilities)
  : Capabilities :=
  {| available := available c; supported := supported c; adapter := adapter c;
     device := device c; reasons := reasons c; features := features c;
     limits := limits c; performanceInfo := p;
     errors := errors c |}.

Definition set_errors (e : list string) (c : Capabilities) : Capabilities :=
  {| available := available c; supported := supported c; adapter := adapter c;
     device := device c; reasons := reasons c; features := features c;
     limits := limits c; performanceInfo := performanceInfo c;
     errors := e |}.

(** [this.capabilities.reasons.push(r)] and [...errors.push(e)]. *)
Definition push_reason (r : string) (c : Capabilities) : Capabilities :=
  set_reasons (reasons c ++ [r]) c.

Definition push_error (e : string) (c : Capabilities) : Capabilities :=
  set_errors (errors c ++ [e]) c.

(** A diagnostic together with its error code, the pair every failing
    branch pushes. *)
Definition fail (r e : string) (c : Capabilities) : Capabilities :=
  push_error e (push_reason r c).

Definition checkAvailability (env : Environment) (c : Capabilities)
  : Capabilities :=
  let c := set_reasons [] c in
  let c := set_errors [] c in
  match navigator_gpu env with
  | None =>
      fail "WebGPU API not available - navigator.gpu is undefined"
           "BROWSER_NOT_SUPPORTED" c
  | Some _ => set_available true c
  end.

(** [navigator.gpu.requestAdapter()]; on a missing [navigator.gpu] the
    property access throws a [TypeError] (message as V8 words it). *)
Definition call_requestAdapter (env : Environment)
  : JS.Completion (option GPUAdapter) :=
  match navigator_gpu env with
  | Some g => gpu_requestAdapter g
  | None =>
      JS.Throws "Cannot read properties of undefined (reading 'requestAdapter')"
  end.

Definition checkAdapter (env : Environment) (c : Capabilities)
  : Capabilities :=
  match call_requestAdapter env with
  | JS.Returns None =>
      fail "No GPU adapter found - GPU may be disabled or unsupported"
           "NO_ADAPTER" c
  | JS.Returns (Some a) =>
      let c := set_adapter (Some a) c in
      let c := set_supported true c in
      let adapterInfo :=
        match adapter_info a with
        | Some i => i
        | None => {| info_vendor := None; info_architecture := None;
                     info_device := None; info_description := None |}
        end in
      set_performanceInfo
        (<["vendor" := JS.or_elseS (info_vendor adapterInfo) "Unknown"]>
         (<["architecture" := JS.or_elseS (info_architecture adapterInfo) "Unknown"]>
          (<["device" := JS.or_elseS (info_device adapterInfo) "Unknown"]>
           (<["description" := JS.or_elseS (info_description adapterInfo) "Unknown"]>
            ∅)))) c
  | JS.Throws message =>
      fail ("Failed to get GPU adapter: " +:+ message) "ADAPTER_ERROR" c
  end.

(** The nine limits [checkDevice] copies. *)
Definition limit_names : list string :=
  [ "maxComputeWorkgroupStorageSize";
    "maxComputeInvocationsPerWorkgroup";
    "maxComputeWorkgroupSizeX";
    "maxComputeWorkgroupSizeY";
    "maxComputeWorkgroupSizeZ";
    "maxComputeWorkgroupsPerDimension";
    "maxStorageBufferBindingSize";
    "maxBufferSize";
    "maxUniformBufferBindingSize" ].

Definition copy_limits (l : gmap string N) : gmap string N :=
  list_to_map (omap (fun k => (fun v => (k, v)) <$> l !! k) limit_names).

(** [checkDevice]: inside one [try], the device is requested and stored,
    then its features are read and stored, then its limits; whatever
    throws on the way is caught and recorded as DEVICE_ERROR, and what was
    stored before stays stored. *)
Definition checkDevice (c : Capabilities) : Capabilities :=
  match adapter c with
  | None => c
  | Some a =>
      match adapter_requestDevice a with
      | JS.Returns None =>
          fail "Failed to create GPU device" "DEVICE_CREATION_FAILED" c
      | JS.Returns (Some d) =>
          let c := set_device (Some d) c in
          match device_features d with
          | JS.Returns f =>
              let c := set_features f c in
              match device_limits d with
              | JS.Returns l => set_limits (copy_limits l) c
              | JS.Throws message =>
                  fail ("Failed to create GPU device: " +:+ message)
                       "DEVICE_ERROR" c
              end
          | JS.Throws message =>
              fail ("Failed to create GPU device: " +:+ message)
                   "DEVICE_ERROR" c
          end
      | JS.Throws message =>
          fail ("Failed to create GPU device: " +:+ message) "DEVICE_ERROR" c
      end
  end.

(** The body of the [try] of [testComputeShader] up to the push: the
    module is created, then the pipeline. *)
Definition compile_test_shader (d : GPUDevice) : JS.Completion unit :=
  match device_createShaderModule d with
  | JS.Returns _ => device_createComputePipeline d
  | JS.Throws message => JS.Throws message
  end.

Definition testComputeShader (c : Capabilities) : Capabilities :=
  match device c with
  | None => c
  | Some d =>
      match compile_test_shader d with
      | JS.Returns _ =>
          push_reason "Basic compute shader compilation successful" c
      | JS.Throws message =>
          fail ("Compute shader test failed: " +:+ message)
               "SHADER_COMPILATION_FAILED" c
      end
  end.

Definition checkSecureContext (env : Environment) (c : Capabilities)
  : bool * Capabilities :=
  if negb (window_isSecureContext env)
  then (false,
        fail "WebGPU requires a secure context (HTTPS, localhost, or file://)"
             "INSECURE_CONTEXT" c)
  else (true, c).

(** [match ? parseInt(match[1]) : 0] *)
Definition version_after (tag userAgent : string) : JS.Natural :=
  match JS.match_digits_after tag userAgent with
  | Some digits => JS.parseInt digits
  | None => JS.Finite 0
  end.

(** An integer version as a rational, to compare it with [16.4]. *)
Definition as_Q (version : N) : Q := inject_Z (Z.of_N version).

(** The version is the Number [parseInt] gives, compared and printed as
    JavaScript compares and prints Numbers. *)
Definition checkBrowserCompatibility (env : Environment) (c : Capabilities)
  : Capabilities :=
  let userAgent := navigator_userAgent env in
  let '(browserInfo, c) :=
    if JS.includes userAgent "Chrome" then
      let version := version_after "Chrome/" userAgent in
      ("Chrome " +:+ JS.Number_toString version,
       if JS.lt_literal version 113
       then fail ("Chrome version " +:+ JS.Number_toString version
                    +:+ " is too old. WebGPU requires Chrome 113+")
                 "BROWSER_VERSION_TOO_OLD" c
       else c)
    else if JS.includes userAgent "Firefox" then
      let version := version_after "Firefox/" userAgent in
      ("Firefox " +:+ JS.Number_toString version,
       if JS.lt_literal version 113
       then fail ("Firefox version " +:+ JS.Number_toString version
                    +:+ " is too old. WebGPU requires Firefox 113+")
                 "BROWSER_VERSION_TOO_OLD" c
       else c)
    else if JS.includes userAgent "Safari" then
      let version := version_after "Version/" userAgent in
      ("Safari " +:+ JS.Number_toString version,
       if JS.lt_literal version (164 # 10)
       then fail ("Safari version " +:+ JS.Number_toString version
                    +:+ " is too old. WebGPU requires Safari 16.4+")
                 "BROWSER_VERSION_TOO_OLD" c
       else c)
    else if JS.includes userAgent "Edge" then
      let version := version_after "Edg/" userAgent in
      ("Edge " +:+ JS.Number_toString version,
       if JS.lt_literal version 113
       then fail ("Edge version " +:+ JS.Number_toString version
                    +:+ " is too old. WebGPU requires Edge 113+")
                 "BROWSER_VERSION_TOO_OLD" c
       else c)
    else
      ("Unknown browser",
       fail "Unsupported browser for WebGPU" "UNSUPPORTED_BROWSER" c) in
  set_performanceInfo (<["browser" := browserInfo]> (performanceInfo c)) c.

Definition runFullCheck (env : Environment) : Capabilities :=
  let c := initial in
  let '(secure, c) := checkSecureContext env c in
  if negb secure then c else
  let c := checkBrowserCompatibility env c in
  let c := checkAvailability env c in
  if negb (available c) then c else
  let c := checkAdapter env c in
  if negb (supported c) then c else
  let c := checkDevice c in
  match device c with
  | None => c
  | Some _ => testComputeShader c
  end.

Definition getStatusMessage (c : Capabilities) : string :=
  if supported c && bool_decide (is_Some (device c)) then
    "WebGPU is fully supported and available for GPU acceleration"
  else if available c then
    "WebGPU is available but has limitations"
  else
    "WebGPU is not supported in this browser or environment".

Definition getPerformanceTier (c : Capabilities) : PerformanceTier :=
  if negb (supported c) then unavailable else
  let limits := limits c in
  if negb (JS.truthy (limits !! "maxComputeInvocationsPerWorkgroup")) then
    unknown
  else if JS.ge (limits !! "maxComputeInvocationsPerWorkgroup") 1024
          && JS.ge (limits !! "maxComputeWorkgroupSizeX") 1024
          && JS.ge (limits !! "maxStorageBufferBindingSize") 134217728 then
    high
  else if JS.ge (limits !! "maxComputeInvocationsPerWorkgroup") 512
          && JS.ge (limits !! "maxComputeWorkgroupSizeX") 512
          && JS.ge (limits !! "maxStorageBufferBindingSize") 67108864 then
    medium
  else
    low.

End Checker.

(** ** gpu-utils.js *)

Module GpuUtils.

(** The object literal [gains] of [estimatePerformanceGain], as the
    partial table of its own keys. *)
Definition gains (threadCount : Q) (performanceTier : PerformanceTier)
  : option Q :=
  match performanceTier with
  | high => Some (20 + threadCount * 2)%Q
  | medium => Some (10 + threadCount)%Q
  | low => Some (4 + threadCount * (1 # 2))%Q
  | unavailable => Some 0%Q
  | unknown => None
  end.

(** The caller passes [threadCount]; the default [4] of the parameter is
    the caller's business. *)
Definition estimatePerformanceGain
    (performanceTier : PerformanceTier) (threadCount : Q) : Q :=
  JS.Math_max 1 (JS.or_elseQ (gains threadCount performanceTier) 0).

Definition unavailable_description : string :=
  "GPU acceleration not available. Using CPU-only mode.".

(** The object literal [descriptions] of [getPerformanceDescription]; the
    template literals convert the gain with [ToString]. *)
Definition descriptions (estimatedGain : Z) (performanceTier : PerformanceTier)
  : option string :=
  match performanceTier with
  | high =>
      Some ("High-performance GPU detected. Estimated "
              +:+ pretty estimatedGain +:+ "x speedup over CPU.")
  | medium =>
      Some ("Mid-range GPU detected. Estimated "
              +:+ pretty estimatedGain +:+ "x speedup over CPU.")
  | low =>
      Some ("Low-end GPU detected. Estimated "
              +:+ pretty estimatedGain +:+ "x speedup over CPU.")
  | unavailable => Some unavailable_description
  | unknown => None
  end.

Definition getPerformanceDescription
    (performanceTier : PerformanceTier) (estimatedGain : Z) : string :=
  JS.or_elseS (descriptions estimatedGain performanceTier)
              unavailable_description.

(** The object [getOptimizedGPUParameters] returns; a property the
    returned literal does not set is [None]. *)
Record OptimizedParameters : Type := {
  useGPU : bool;
  reason : option string;
  performanceTier : option PerformanceTier;
  optimizedNB_ITER : N;
  optimizedNB_THREAD : N;
  gpuInfo : option (gmap string string);
  limits : option (gmap string N)
}.

(** [getOptimizedGPUParameters] from the record [runFullCheck] resolved
    to.  [webgpuChecker.getPerformanceTier()] reads that same record, and
    nothing in the [try] block throws on it, so the [catch] is not taken. *)
Definition parametersOf (capabilities : Checker.Capabilities)
  : OptimizedParameters :=
  if negb (Checker.supported capabilities) then
    {| useGPU := false;
       reason := Some "WebGPU not supported";
       performanceTier := None;
       optimizedNB_ITER := 256;
       optimizedNB_THREAD := 64;
       gpuInfo := None;
       limits := None |}
  else
    let limits := Checker.limits capabilities in
    let performanceTier := Checker.getPerformanceTier capabilities in
    let '(optimizedNB_ITER, optimizedNB_THREAD) :=
      match performanceTier with
      | high =>
          (JS.Math_min 512
             (JS.or_else
                (JS.floor_div (limits !! "maxComputeWorkgroupsPerDimension") 2)
                512),
           JS.Math_min 256
             (JS.or_else (limits !! "maxComputeWorkgroupSizeX") 256))
      | medium =>
          (JS.Math_min 384
             (JS.or_else
                (JS.floor_div (limits !! "maxComputeWorkgroupsPerDimension") 3)
                384),
           JS.Math_min 128
             (JS.or_else (limits !! "maxComputeWorkgroupSizeX") 128))
      | low =>
          (JS.Math_min 256
             (JS.or_else
                (JS.floor_div (limits !! "maxComputeWorkgroupsPerDimension") 4)
                256),
           JS.Math_min 64
             (JS.or_else (limits !! "maxComputeWorkgroupSizeX") 64))
      | unknown | unavailable => (256%N, 64%N)
      end in
    {| useGPU := true;
       reason := None;
       performanceTier := Some performanceTier;
       optimizedNB_ITER := optimizedNB_ITER;
       optimizedNB_THREAD := optimizedNB_THREAD;
       gpuInfo := Some (Checker.performanceInfo capabilities);
       limits := Some limits |}.

Definition getOptimizedGPUParameters (env : Environment)
  : OptimizedParameters :=
  parametersOf (Checker.runFullCheck env).

End GpuUtils.

(** ** gpu-utils.js: the functions that wrap a probe

    Each call of [webgpuChecker.runFullCheck()] is a probe of its own; a
    function that probes twice takes the environment of each probe. *)

Module GpuDecision.

(** The object [checkWebGPUAvailability] returns. *)
Record Availability : Type := {
  available : bool;
  supported : bool;
  performanceTier : PerformanceTier;
  reasons : list string;
  errors : list string
}.

(** [runFullCheck] and [getPerformanceTier] do not throw on any
    environment, so the [catch] is not taken. *)
Definition checkWebGPUAvailability (env : Environment) : Availability :=
  let capabilities := Checker.runFullCheck env in
  {| available := Checker.available capabilities;
     supported := Checker.supported capabilities;
     performanceTier := Checker.getPerformanceTier capabilities;
     reasons := Checker.reasons capabilities;
     errors := Checker.errors capabilities |}.

(** The object [shouldUseGPU] returns, [decidedTier] being its
    [performanceTier] property; the two early returns set neither that
    property nor [parameters]. *)
Record Decision : Type := {
  useGPU : bool;
  reason : string;
  decidedTier : option PerformanceTier;
  parameters : option GpuUtils.OptimizedParameters
}.

(** [shouldUseGPU(preferGPU)]: [env] is the environment of the probe made
    by [checkWebGPUAvailability], [env'] that of the probe made by
    [getOptimizedGPUParameters]. *)
Definition shouldUseGPU (preferGPU : bool) (env env' : Environment)
  : Decision :=
  if negb preferGPU then
    {| useGPU := false;
       reason := "User prefers CPU";
       decidedTier := None;
       parameters := None |}
  else
    let availability := checkWebGPUAvailability env in
    if negb (supported availability) then
      {| useGPU := false;
         reason := JS.or_elseS (Some (JS.join "; " (reasons availability)))
                               "WebGPU not supported";
         decidedTier := None;
         parameters := None |}
    else
      let params := GpuUtils.getOptimizedGPUParameters env' in
      {| useGPU := GpuUtils.useGPU params;
         reason := JS.or_elseS (GpuUtils.reason params)
                               "GPU acceleration available";
         decidedTier := GpuUtils.performanceTier params;
         parameters := Some params |}.

End GpuDecision.

(** ** WebGPUStatus.vue: the computed properties of the status panel *)

Module StatusPanel.

Definition statusClass (capabilities : Checker.Capabilities) : string :=
  if Checker.supported capabilities then "status-success"
  else if Checker.available capabilities then "status-warning"
  else "status-error".

Definition statusTitle (capabilities : Checker.Capabilities) : string :=
  if Checker.supported capabilities then "WebGPU Available"
  else if Checker.available capabilities then "WebGPU Limited"
  else "WebGPU Unavailable".

Definition tierClass (tier : PerformanceTier) : string :=
  match tier with
  | high => "tier-high"
  | medium => "tier-medium"
  | low => "tier-low"
  | unknown | unavailable => "tier-unknown"
  end.

Definition tierWidth (tier : PerformanceTier) : string :=
  match tier with
  | high => "100%"
  | medium => "66%"
  | low => "33%"
  | unknown | unavailable => "0%"
  end.

(** The panel's own table of estimates; 'unavailable' is not a key. *)
Definition estimatedGain (tier : PerformanceTier) : N :=
  JS.or_else
    match tier with
    | high => Some 24%N
    | medium => Some 12%N
    | low => Some 5%N
    | unknown => Some 0%N
    | unavailable => None
    end 0.

Definition displayedFeatures (showAllFeatures : bool) (features : list string)
  : list string :=
  if showAllFeatures || (length features <=? 10)%nat
  then features
  else take 10 features.

(** The count in the label of the 'Show ... More' button, which is
    rendered when there are more than ten features. *)
Definition hiddenFeatures (features : list string) : nat :=
  (length features - 10)%nat.

End StatusPanel.

(** ** The page component: checkWebGPUCapabilities *)

Module App.

(** [this.gpuOptimization]. *)
Record GpuOptimization : Type := {
  useGPU : bool;
  performanceTier : PerformanceTier;
  estimatedGain : Z;
  optimizedNB_ITER : N;
  optimizedNB_THREAD : N
}.

(** The value in the component's [data]. *)
Definition initial : GpuOptimization := {|
  useGPU := false;
  performanceTier := unavailable;
  estimatedGain := 0;
  optimizedNB_ITER := 256;
  optimizedNB_THREAD := 64
|}.

(** [estimatePerformanceGain] applied to a property that may be missing:
    [gains[undefined]] is [undefined]. *)
Definition estimateFor (tier : option PerformanceTier) (threadCount : Q) : Q :=
  match tier with
  | Some t => GpuUtils.estimatePerformanceGain t threadCount
  | None => JS.Math_max 1 (JS.or_elseQ None 0)
  end.

(** [checkWebGPUCapabilities]: the new values of [this.webgpuCapabilities]
    and [this.gpuOptimization]; [env] is the environment of the method's
    own probe, [env'] that of the probe [getOptimizedGPUParameters] makes,
    and [threads] is [this.threads]. *)
Definition checkWebGPUCapabilities (threads : Z) (env env' : Environment)
  : Checker.Capabilities * GpuOptimization :=
  let webgpuCapabilities := Checker.runFullCheck env in
  let gpuParams := GpuUtils.getOptimizedGPUParameters env' in
  (webgpuCapabilities,
   {| useGPU := GpuUtils.useGPU gpuParams;
      performanceTier :=
        match GpuUtils.performanceTier gpuParams with
        | Some t => t
        | None => unavailable
        end;
      estimatedGain :=
        JS.Math_round
          (estimateFor (GpuUtils.performanceTier gpuParams) (inject_Z threads));
      optimizedNB_ITER := GpuUtils.optimizedNB_ITER gpuParams;
      optimizedNB_THREAD := GpuUtils.optimizedNB_THREAD gpuParams |}).

End App.

Import Checker.

(** ** Vocabulary of the specification

    The names of the limits the classifier and the optimizer read, and the
    notions the properties below are stated with. *)

Abbreviation INVOCATIONS := "maxComputeInvocationsPerWorkgroup".
Abbreviation SIZE_X := "maxComputeWorkgroupSizeX".
Abbreviation STORAGE_BINDING := "maxStorageBufferBindingSize".
Abbreviation WORKGROUPS := "maxComputeWorkgroupsPerDimension".

(** A record of a supported backend with the given limits. *)
Definition supported_with (l : gmap string N) : Capabilities :=
  set_limits l (set_supported true (set_available true initial)).

(** A limit is reported and is at least [k]. *)
Definition reaches (x : option N) (k : N) : Prop :=
  exists n, x = Some n /\ (k <= n)%N.

Definition high_limits (c : Capabilities) : Prop :=
  reaches (limits c !! INVOCATIONS) 1024 /\
  reaches (limits c !! SIZE_X) 1024 /\
  reaches (limits c !! STORAGE_BINDING) 134217728.

Definition medium_limits (c : Capabilities) : Prop :=
  reaches (limits c !! INVOCATIONS) 512 /\
  reaches (limits c !! SIZE_X) 512 /\
  reaches (limits c !! STORAGE_BINDING) 67108864.

(** The classifier in the words of the specification: 'unknown' is for
    an absent invocations limit only, every other supported record is
    'high', 'medium' or 'low'. *)
Definition tier_as_specified (c : Capabilities) : PerformanceTier :=
  if negb (supported c) then unavailable else
  match limits c !! INVOCATIONS with
  | None => unknown
  | Some invocations =>
      if (1024 <=? invocations)%N
         && JS.ge (limits c !! SIZE_X) 1024
         && JS.ge (limits c !! STORAGE_BINDING) 134217728
      then high
      else if (512 <=? invocations)%N
              && JS.ge (limits c !! SIZE_X) 512
              && JS.ge (limits c !! STORAGE_BINDING) 67108864
      then medium
      else low
  end.

(** The order high > medium > low > unknown. *)
Definition tier_rank (t : PerformanceTier) : nat :=
  match t with
  | high => 3
  | medium => 2
  | low => 1
  | unknown => 0
  | unavailable => 0
  end.

(** The tier caps and the divisor applied to the workgroups-per-dimension
    limit, as the specification tabulates them. *)
Definition iteration_cap (t : PerformanceTier) : N :=
  match t with
  | high => 512
  | medium => 384
  | _ => 256
  end.

Definition thread_cap (t : PerformanceTier) : N :=
  match t with
  | high => 256
  | medium => 128
  | _ => 64
  end.

Definition workgroups_divisor (t : PerformanceTier) : N :=
  match t with
  | high => 2
  | medium => 3
  | _ => 4
  end.

(** The minimum of a cap and a limit-derived value, a derived value that
    is zero or absent standing for the cap. *)
Definition capped (cap : N) (derived : option N) : N :=
  match derived with
  | Some (Npos p) => N.min cap (Npos p)
  | Some N0 => cap
  | None => cap
  end.

Definition fallback_parameters : GpuUtils.OptimizedParameters := {|
  GpuUtils.useGPU := false;
  GpuUtils.reason := Some "WebGPU not supported";
  GpuUtils.performanceTier := None;
  GpuUtils.optimizedNB_ITER := 256;
  GpuUtils.optimizedNB_THREAD := 64;
  GpuUtils.gpuInfo := None;
  GpuUtils.limits := None
|}.

(** What the environment will hand out when asked: the adapter
    [requestAdapter()] resolves to, and the device that adapter's
    [requestDevice()] resolves to. *)
Definition acquired_adapter (env : Environment) : option GPUAdapter :=
  match navigator_gpu env with
  | Some g =>
      match gpu_requestAdapter g with
      | JS.Returns (Some a) => Some a
      | JS.Returns None => None
      | JS.Throws _ => None
      end
  | None => None
  end.

Definition acquired_device (env : Environment) : option GPUDevice :=
  match acquired_adapter env with
  | Some a =>
      match adapter_requestDevice a with
      | JS.Returns (Some d) => Some d
      | JS.Returns None => None
      | JS.Throws _ => None
      end
  | None => None
  end.

(** The runtime families of the compatibility check with, for each, the
    word that identifies it, the pattern its version is read after, and
    its minimum version. *)
Inductive RuntimeFamily : Type :=
| Chrome
| Firefox
| Safari
| Edge.

Definition family_marker (f : RuntimeFamily) : string :=
  match f with
  | Chrome => "Chrome"
  | Firefox => "Firefox"
  | Safari => "Safari"
  | Edge => "Edge"
  end.

Definition version_pattern (f : RuntimeFamily) : string :=
  match f with
  | Chrome => "Chrome/"
  | Firefox => "Firefox/"
  | Safari => "Version/"
  | Edge => "Edg/"
  end.

Definition minimum_version (f : RuntimeFamily) : Q :=
  match f with
  | Chrome => 113
  | Firefox => 113
  | Safari => 164 # 10
  | Edge => 113
  end.

(** The first family, in the order the check tries them, whose marker
    occurs in the user agent. *)
Definition recognized_family (userAgent : string) : option RuntimeFamily :=
  List.find (fun f => JS.includes userAgent (family_marker f))
            [Chrome; Firefox; Safari; Edge].

(** The version as the integer its digits denote. *)
Definition parsed_version (f : RuntimeFamily) (userAgent : string) : N :=
  match JS.match_digits_after (version_pattern f) userAgent with
  | Some digits => JS.parse_digits 0%N digits
  | None => 0%N
  end.

(** The error codes the compatibility check appends to [errors]. *)
Definition recorded_errors (env : Environment) (c : Capabilities)
  : list string :=
  drop (length (errors c)) (errors (checkBrowserCompatibility env c)).

Definition verdict (userAgent : string) : list string :=
  match recognized_family userAgent with
  | Some f =>
      if JS.ltQ (as_Q (parsed_version f userAgent)) (minimum_version f)
      then ["BROWSER_VERSION_TOO_OLD"]
      else []
  | None => ["UNSUPPORTED_BROWSER"]
  end.

(** How the test shader fails on a device: the message of the first of
    [createShaderModule] and [createComputePipeline] that throws. *)
Definition shader_failure (d : GPUDevice) : option string :=
  match device_createShaderModule d with
  | JS.Throws message => Some message
  | JS.Returns _ =>
      match device_createComputePipeline d with
      | JS.Throws message => Some message
      | JS.Returns _ => None
      end
  end.

Definition shader_reason (d : GPUDevice) : string :=
  match shader_failure d with
  | Some message => "Compute shader test failed: " +:+ message
  | None => "Basic compute shader compilation successful"
  end.

Definition shader_errors (d : GPUDevice) : list string :=
  match shader_failure d with
  | Some _ => ["SHADER_COMPILATION_FAILED"]
  | None => []
  end.

(** How reading a device's features and limits fails: the message of the
    first of the two reads that throws. *)
Definition capabilities_failure (d : GPUDevice) : option string :=
  match device_features d with
  | JS.Throws message => Some message
  | JS.Returns _ =>
      match device_limits d with
      | JS.Throws message => Some message
      | JS.Returns _ => None
      end
  end.

(** The features and the limits a record gets from a device: the features
    if they can be read, the nine copied limits if both can be read. *)
Definition read_features (d : GPUDevice) : list string :=
  match device_features d with
  | JS.Returns f => f
  | JS.Throws _ => []
  end.

Definition read_limits (d : GPUDevice) : gmap string N :=
  match device_features d, device_limits d with
  | JS.Returns _, JS.Returns l => copy_limits l
  | _, _ => ∅
  end.

(** The error codes of the availability, adapter, device and shader
    checks on an environment, in the order of the checks. *)
Definition probe_errors (env : Environment) : list string :=
  match navigator_gpu env with
  | None => ["BROWSER_NOT_SUPPORTED"]
  | Some g =>
      match gpu_requestAdapter g with
      | JS.Returns None => ["NO_ADAPTER"]
      | JS.Throws _ => ["ADAPTER_ERROR"]
      | JS.Returns (Some a) =>
          match adapter_requestDevice a with
          | JS.Returns None => ["DEVICE_CREATION_FAILED"]
          | JS.Throws _ => ["DEVICE_ERROR"]
          | JS.Returns (Some d) =>
              match capabilities_failure d with
              | Some _ => "DEVICE_ERROR" :: shader_errors d
              | None => shader_errors d
              end
          end
      end
  end.

(** [browserInfo] as the compatibility check computes it. *)
Definition browser_info (userAgent : string) : string :=
  match recognized_family userAgent with
  | Some f =>
      family_marker f +:+ " "
        +:+ JS.Number_toString (version_after (version_pattern f) userAgent)
  | None => "Unknown browser"
  end.

(** The performance info the adapter check builds from [adapter.info]. *)
Definition adapter_report (a : GPUAdapter) : gmap string string :=
  let adapterInfo :=
    match adapter_info a with
    | Some i => i
    | None => {| info_vendor := None; info_architecture := None;
                 info_device := None; info_description := None |}
    end in
  <["vendor" := JS.or_elseS (info_vendor adapterInfo) "Unknown"]>
  (<["architecture" := JS.or_elseS (info_architecture adapterInfo) "Unknown"]>
   (<["device" := JS.or_elseS (info_device adapterInfo) "Unknown"]>
    (<["description" := JS.or_elseS (info_description adapterInfo) "Unknown"]>
     ∅))).

(** The record of a probe in a secure context, stage by stage: what the
    first failing stage leaves, or the record of a complete probe. *)
Definition probe_record (env : Environment) : Capabilities :=
  let browser : gmap string string :=
    <["browser" := browser_info (navigator_userAgent env)]> ∅ in
  match navigator_gpu env with
  | None =>
      {| available := false; supported := false;
         adapter := None; device := None;
         reasons := ["WebGPU API not available - navigator.gpu is undefined"];
         features := []; limits := ∅; performanceInfo := browser;
         errors := ["BROWSER_NOT_SUPPORTED"] |}
  | Some g =>
      match gpu_requestAdapter g with
      | JS.Throws message =>
          {| available := true; supported := false;
             adapter := None; device := None;
             reasons := ["Failed to get GPU adapter: " +:+ message];
             features := []; limits := ∅; performanceInfo := browser;
             errors := ["ADAPTER_ERROR"] |}
      | JS.Returns None =>
          {| available := true; supported := false;
             adapter := None; device := None;
             reasons :=
               ["No GPU adapter found - GPU may be disabled or unsupported"];
             features := []; limits := ∅; performanceInfo := browser;
             errors := ["NO_ADAPTER"] |}
      | JS.Returns (Some a) =>
          match adapter_requestDevice a with
          | JS.Throws message =>
              {| available := true; supported := true;
                 adapter := Some a; device := None;
                 reasons := ["Failed to create GPU device: " +:+ message];
                 features := []; limits := ∅;
                 performanceInfo := adapter_report a;
                 errors := ["DEVICE_ERROR"] |}
          | JS.Returns None =>
              {| available := true; supported := true;
                 adapter := Some a; device := None;
                 reasons := ["Failed to create GPU device"];
                 features := []; limits := ∅;
                 performanceInfo := adapter_report a;
                 errors := ["DEVICE_CREATION_FAILED"] |}
          | JS.Returns (Some d) =>
              {| available := true; supported := true;
                 adapter := Some a; device := Some d;
                 reasons :=
                   match capabilities_failure d with
                   | Some message =>
                       ["Failed to create GPU device: " +:+ message;
                        shader_reason d]
                   | None => [shader_reason d]
                   end;
                 features := read_features d;
                 limits := read_limits d;
                 performanceInfo := adapter_report a;
                 errors :=
                   match capabilities_failure d with
                   | Some _ => "DEVICE_ERROR" :: shader_errors d
                   | None => shader_errors d
                   end |}
          end
      end
  end.

(** The environment [env] with another user agent. *)
Definition with_userAgent (userAgent : string) (env : Environment)
  : Environment :=
  {| window_isSecureContext := window_isSecureContext env;
     navigator_userAgent := userAgent;
     navigator_gpu := navigator_gpu env |}.

(** ** Sample environments *)

Definition sample_limits : gmap string N :=
  <["maxComputeInvocationsPerWorkgroup" := 1024%N]>
  (<["maxComputeWorkgroupSizeX" := 1024%N]>
   (<["maxStorageBufferBindingSize" := 134217728%N]>
    (<["maxComputeWorkgroupsPerDimension" := 65535%N]>
     (<["maxTextureDimension2D" := 8192%N]> ∅)))).

Definition sample_device : GPUDevice := {|
  device_features := JS.Returns ["shader-f16"; "timestamp-query"];
  device_limits := JS.Returns sample_limits;
  device_createShaderModule := JS.Returns tt;
  device_createComputePipeline := JS.Returns tt
|}.

(** A device whose shader module is created but whose pipeline is not. *)
Definition unbuildable_device : GPUDevice := {|
  device_features := JS.Returns ["shader-f16"];
  device_limits := JS.Returns sample_limits;
  device_createShaderModule := JS.Returns tt;
  device_createComputePipeline := JS.Throws "Invalid ShaderModule"
|}.

(** A device that exposes neither its features nor its limits: reading
    them throws after the device has been stored. *)
Definition opaque_device : GPUDevice := {|
  device_features := JS.Throws "device.features is not iterable";
  device_limits := JS.Throws "Cannot read properties of undefined";
  device_createShaderModule := JS.Returns tt;
  device_createComputePipeline := JS.Returns tt
|}.

Definition sample_adapter : GPUAdapter := {|
  adapter_info := Some {| info_vendor := Some "nvidia";
                          info_architecture := Some "";
                          info_device := None;
                          info_description := None |};
  adapter_requestDevice := JS.Returns (Some sample_device)
|}.

Definition sample_userAgent : string :=
  "Mozilla/5.0 (X11; Linux x86_64) AppleWebKit/537.36 (KHTML, like Gecko) Chrome/112.0.0.0 Safari/537.36".

Definition sample_env : Environment := {|
  window_isSecureContext := true;
  navigator_userAgent := sample_userAgent;
  navigator_gpu := Some {| gpu_requestAdapter := JS.Returns (Some sample_adapter) |}
|}.

(** The sample environment with the adapter granting the device [d]. *)
Definition device_env (d : GPUDevice) : Environment := {|
  window_isSecureContext := true;
  navigator_userAgent := sample_userAgent;
  navigator_gpu :=
    Some {| gpu_requestAdapter :=
              JS.Returns (Some {| adapter_info := adapter_info sample_adapter;
                                  adapter_requestDevice := JS.Returns (Some d) |}) |}
|}.

Definition insecure_env : Environment := {|
  window_isSecureContext := false;
  navigator_userAgent := sample_userAgent;
  navigator_gpu := Some {| gpu_requestAdapter := JS.Returns (Some sample_adapter) |}
|}.

Definition unparsable_firefox_env : Environment := {|
  window_isSecureContext := true;
  navigator_userAgent := "Mozilla/5.0 (X11; Linux x86_64; rv:109.0) Gecko/20100101 Firefox/nightly";
  navigator_gpu := None
|}.

Definition no_gpu_env : Environment := {|
  window_isSecureContext := true;
  navigator_userAgent := sample_userAgent;
  navigator_gpu := None
|}.

Definition zero_invocations : Capabilities :=
  supported_with
    (<[INVOCATIONS := 0%N]>
     (<[SIZE_X := 1024%N]> (<[STORAGE_BINDING := 134217728%N]> ∅))).

(** A high-tier record whose workgroups-per-dimension limit is [0]. *)
Definition zero_workgroups : Capabilities :=
  supported_with
    (<["maxComputeInvocationsPerWorkgroup" := 1024%N]>
     (<[SIZE_X := 1024%N]>
      (<["maxStorageBufferBindingSize" := 134217728%N]>
       (<[WORKGROUPS := 0%N]> ∅)))).

(** ** The embedding at work on the sample environments *)

Example sample_probe :
  let c := runFullCheck sample_env in
  available c = true /\ supported c = true /\
  device c = Some sample_device /\
  features c = ["shader-f16"; "timestamp-query"] /\
  limits c !! WORKGROUPS = Some 65535%N /\
  limits c !! "maxTextureDimension2D" = None /\
  performanceInfo c !! "vendor" = Some "nvidia" /\
  performanceInfo c !! "architecture" = Some "Unknown" /\
  performanceInfo c !! "browser" = None /\
  reasons c = ["Basic compute shader compilation successful"] /\
  errors c = [] /\
  getPerformanceTier c = high /\
  getStatusMessage c
  = "WebGPU is fully supported and available for GPU acceleration".
Proof. vm_compute. repeat split; reflexivity. Qed.

Example sample_parameters :
  GpuUtils.useGPU (GpuUtils.getOptimizedGPUParameters sample_env) = true /\
  GpuUtils.performanceTier (GpuUtils.getOptimizedGPUParameters sample_env)
  = Some high /\
  GpuUtils.optimizedNB_ITER (GpuUtils.getOptimizedGPUParameters sample_env)
  = 512%N /\
  GpuUtils.optimizedNB_THREAD (GpuUtils.getOptimizedGPUParameters sample_env)
  = 256%N.
Proof. vm_compute. repeat split; reflexivity. Qed.

Example sample_compatibility :
  let c := checkBrowserCompatibility sample_env initial in
  reasons c
  = ["Chrome version 112 is too old. WebGPU requires Chrome 113+"] /\
  errors c = ["BROWSER_VERSION_TOO_OLD"] /\
  performanceInfo c !! "browser" = Some "Chrome 112".
Proof. vm_compute. repeat split; reflexivity. Qed.

Example no_gpu_probe :
  reasons (runFullCheck no_gpu_env)
  = ["WebGPU API not available - navigator.gpu is undefined"] /\
  errors (runFullCheck no_gpu_env) = ["BROWSER_NOT_SUPPORTED"] /\
  performanceInfo (runFullCheck no_gpu_env) !! "browser" = Some "Chrome 112" /\
  getStatusMessage (runFullCheck no_gpu_env)
  = "WebGPU is not supported in this browser or environment".
Proof. vm_compute. repeat split; reflexivity. Qed.

(** ** JavaScript operators: basic facts *)

Section JSFacts.

Lemma Math_max_Qmax (a b : Q) : (JS.Math_max a b == Qmax a b)%Q.
Proof.
  unfold JS.Math_max. destruct (Qle_bool a b) eqn:E.
  - apply Qle_bool_iff in E. symmetry. now apply Q.max_r.
  - symmetry. apply Q.max_l. apply Qlt_le_weak, Qnot_le_lt.
    intros H. apply Qle_bool_iff in H. congruence.
Qed.

Lemma or_elseQ_Some (q : Q) : (JS.or_elseQ (Some q) 0 == q)%Q.
Proof.
  unfold JS.or_elseQ. destruct (Qeq_bool q 0) eqn:E; [|reflexivity].
  apply Qeq_bool_iff in E. now symmetry.
Qed.

Lemma Math_max_1_proper (p q : Q) :
  (p == q)%Q -> (JS.Math_max 1 p == Qmax 1 q)%Q.
Proof. intros H. rewrite Math_max_Qmax. now rewrite H. Qed.

Lemma or_else_pos (x : JS.number) (d : N) :
  (0 < d)%N -> (0 < JS.or_else x d)%N.
Proof.
  intros Hd. unfold JS.or_else. destruct x as [n|]; [|exact Hd].
  destruct (N.eqb_spec n 0); lia.
Qed.

Lemma ge_Some (x : JS.number) (k : N) :
  JS.ge x k = true <-> exists n, x = Some n /\ (k <= n)%N.
Proof.
  unfold JS.ge. destruct x as [n|].
  - rewrite N.leb_le. split; [eauto|]. now intros (m & [= ->] & H).
  - split; [discriminate|]. now intros (m & [=] & _).
Qed.

Lemma truthy_Some (x : JS.number) :
  JS.truthy x = true <-> exists n, x = Some n /\ n <> 0%N.
Proof.
  unfold JS.truthy. destruct x as [n|].
  - rewrite negb_true_iff, N.eqb_neq. split; [eauto|]. now intros (m & [= ->] & H).
  - split; [discriminate|]. now intros (m & [=] & _).
Qed.

Lemma string_length_app (a b : string) :
  String.length (a +:+ b) = (String.length a + String.length b)%nat.
Proof. induction a as [|x a IH]; simpl; [reflexivity | now rewrite IH]. Qed.

Lemma string_app_inj_r (s a b : string) : a +:+ s = b +:+ s -> a = b.
Proof.
  revert b. induction a as [|x a IH]; intros [|y b] H; simpl in H.
  - reflexivity.
  - apply (f_equal String.length) in H. simpl in H.
    rewrite !string_length_app in H. simpl in H. lia.
  - apply (f_equal String.length) in H. simpl in H.
    rewrite !string_length_app in H. simpl in H. lia.
  - injection H as -> H. f_equal. now apply IH.
Qed.

End JSFacts.

(** ** gpu-utils.js: the speed-up estimate and its description *)

Section Estimate.

Import GpuUtils.

(** C1, as stated: the claim asks for exactly [0] at tier 'unavailable'.
    The table entry [unavailable: 0] passes through [Math.max(1, ...)]
    like every other entry, so the function returns [1] there. *)
Lemma estimatePerformanceGain_unavailable_not_zero :
  ~ (estimatePerformanceGain unavailable 4 == 0)%Q.
Proof. vm_compute. discriminate. Qed.

(** C1, amended: for every concurrency hint [n] the estimate is
    [max(1, 20 + 2n)] at tier 'high', [max(1, 10 + n)] at 'medium',
    [max(1, 4 + 0.5n)] at 'low', and exactly [1] at tier 'unavailable'
    (and at 'unknown'); at [n = 4] it is 28, 14, 6 and 1. *)
Theorem estimatePerformanceGain_floored (n : Q) :
  (estimatePerformanceGain high n == Qmax 1 (20 + 2 * n))%Q /\
  (estimatePerformanceGain medium n == Qmax 1 (10 + n))%Q /\
  (estimatePerformanceGain low n == Qmax 1 (4 + (1 # 2) * n))%Q /\
  (estimatePerformanceGain unavailable n == 1)%Q /\
  (estimatePerformanceGain unknown n == 1)%Q /\
  (estimatePerformanceGain high 4 == 28)%Q /\
  (estimatePerformanceGain medium 4 == 14)%Q /\
  (estimatePerformanceGain low 4 == 6)%Q /\
  (estimatePerformanceGain unavailable 4 == 1)%Q.
Proof.
  unfold estimatePerformanceGain. repeat split; try reflexivity.
  - apply Math_max_1_proper. simpl gains. rewrite or_elseQ_Some. ring.
  - apply Math_max_1_proper. simpl gains. now rewrite or_elseQ_Some.
  - apply Math_max_1_proper. simpl gains. rewrite or_elseQ_Some. ring.
Qed.

(** C10: a tier outside the four keys of [descriptions] (that is,
    'unknown') gets the fixed unavailable text whatever the gain, and the
    three GPU tiers get their template with the gain's decimal form in
    it, so that different gains give different texts. *)
Theorem getPerformanceDescription_templates
    (performanceTier : PerformanceTier) (estimatedGain : Z) :
  (performanceTier ∉ [high; medium; low; unavailable] ->
     getPerformanceDescription performanceTier estimatedGain
     = "GPU acceleration not available. Using CPU-only mode.") /\
  getPerformanceDescription high estimatedGain
  = "High-performance GPU detected. Estimated " +:+ pretty estimatedGain
      +:+ "x speedup over CPU." /\
  getPerformanceDescription medium estimatedGain
  = "Mid-range GPU detected. Estimated " +:+ pretty estimatedGain
      +:+ "x speedup over CPU." /\
  getPerformanceDescription low estimatedGain
  = "Low-end GPU detected. Estimated " +:+ pretty estimatedGain
      +:+ "x speedup over CPU." /\
  (forall otherGain : Z,
     performanceTier ∈ [high; medium; low] ->
     getPerformanceDescription performanceTier estimatedGain
     = getPerformanceDescription performanceTier otherGain ->
     estimatedGain = otherGain).
Proof.
  split; [|split; [|split; [|split]]]; try reflexivity.
  - intros Hout. destruct performanceTier; try reflexivity;
      exfalso; apply Hout; rewrite !elem_of_cons; tauto.
  - intros g Hin Heq.
    assert (Hcases : performanceTier = high \/ performanceTier = medium
                     \/ performanceTier = low).
    { rewrite !elem_of_cons, elem_of_nil in Hin. tauto. }
    apply (inj (pretty : Z -> string)).
    apply (string_app_inj_r "x speedup over CPU.").
    destruct Hcases as [-> | [-> | ->]]; cbn in Heq;
      repeat (injection Heq as Heq); exact Heq.
Qed.

Lemma getPerformanceDescription_templates_witness :
  getPerformanceDescription unknown 28
  = "GPU acceleration not available. Using CPU-only mode.".
Proof.
  apply (getPerformanceDescription_templates unknown 28).
  intros H. repeat (apply elem_of_cons in H as [H | H]; [discriminate H|]).
  inversion H.
Defined.

End Estimate.

(** ** The tier classifier *)

Section Classifier.

Ltac split_limits c :=
  destruct (limits c !! INVOCATIONS) as [?i|];
  destruct (limits c !! SIZE_X) as [?x|];
  destruct (limits c !! STORAGE_BINDING) as [?s|];
  cbn [JS.truthy JS.ge negb andb].

Ltac split_comparisons :=
  repeat match goal with
    | |- context [(?a <=? ?b)%N] => destruct (N.leb_spec a b)
    | |- context [(?a =? ?b)%N] => destruct (N.eqb_spec a b)
    end;
  cbn [negb andb].

(** C3, as stated: a reported invocations limit of [0] is not absent and
    meets neither the high nor the medium thresholds, so the claim puts
    the record at 'low'; [!limits.maxComputeInvocationsPerWorkgroup] is
    true for [0] and the classifier answers 'unknown'. *)
Lemma getPerformanceTier_zero_invocations_unknown :
  supported zero_invocations = true /\
  limits zero_invocations !! INVOCATIONS = Some 0%N /\
  tier_as_specified zero_invocations = low /\
  getPerformanceTier zero_invocations = unknown /\
  getPerformanceTier zero_invocations <> tier_as_specified zero_invocations.
Proof. vm_compute. repeat split; discriminate. Qed.

(** C3, amended: the classifier returns 'unavailable' whenever supported
    is false; on a supported record it returns 'unknown' exactly when the
    invocations limit is absent or zero, 'high' exactly when invocations
    >= 1024, sizeX >= 1024 and storage binding >= 134217728, 'medium'
    exactly when that fails and invocations >= 512, sizeX >= 512 and
    storage binding >= 67108864, and 'low' exactly when the invocations
    limit is reported and non-zero and neither set of thresholds is met;
    the three sample limit sets classify as high, medium and low. *)
Theorem getPerformanceTier_thresholds (c : Capabilities) :
  (supported c = false -> getPerformanceTier c = unavailable) /\
  (supported c = true ->
     (getPerformanceTier c = unknown <->
        limits c !! INVOCATIONS = None \/ limits c !! INVOCATIONS = Some 0%N) /\
     (getPerformanceTier c = high <-> high_limits c) /\
     (getPerformanceTier c = medium <-> ~ high_limits c /\ medium_limits c) /\
     (getPerformanceTier c = low <->
        (exists n, limits c !! INVOCATIONS = Some n /\ n <> 0%N) /\
        ~ high_limits c /\ ~ medium_limits c)) /\
  getPerformanceTier
    (supported_with (<[INVOCATIONS := 1024%N]> (<[SIZE_X := 1024%N]>
       (<[STORAGE_BINDING := 134217728%N]> ∅)))) = high /\
  getPerformanceTier
    (supported_with (<[INVOCATIONS := 1024%N]> (<[SIZE_X := 1024%N]>
       (<[STORAGE_BINDING := 67108864%N]> ∅)))) = medium /\
  getPerformanceTier
    (supported_with (<[INVOCATIONS := 100%N]> (<[SIZE_X := 1024%N]>
       (<[STORAGE_BINDING := 134217728%N]> ∅)))) = low.
Proof.
  split; [|split; [|repeat split; reflexivity]].
  - unfold getPerformanceTier. now intros ->.
  - intros Hs. unfold getPerformanceTier, high_limits, medium_limits, reaches.
    rewrite Hs. cbn [negb]. split_limits c; split_comparisons;
      repeat split; intros; try discriminate; try tauto;
      naive_solver lia.
Qed.

Lemma getPerformanceTier_thresholds_witness :
  getPerformanceTier zero_invocations = unknown.
Proof.
  apply (getPerformanceTier_thresholds zero_invocations); [reflexivity|].
  right. reflexivity.
Defined.

(** C5: on a supported record, raising the invocations, workgroup-size-X
    or storage-binding limit and keeping everything else never lowers the
    tier in the order high > medium > low > unknown. *)
Theorem getPerformanceTier_monotone
    (c : Capabilities) (name : string) (a b : N) :
  supported c = true ->
  name ∈ [INVOCATIONS; SIZE_X; STORAGE_BINDING] ->
  limits c !! name = Some a ->
  (a <= b)%N ->
  (tier_rank (getPerformanceTier c)
   <= tier_rank (getPerformanceTier (set_limits (<[name := b]> (limits c)) c)))%nat.
Proof.
  intros Hs Hname Ha Hab.
  rewrite !elem_of_cons, elem_of_nil in Hname.
  unfold getPerformanceTier. cbn [supported limits set_limits].
  rewrite Hs. cbn [negb].
  destruct Hname as [-> | [-> | [-> | []]]];
    rewrite lookup_insert_eq, !lookup_insert_ne by discriminate;
    rewrite Ha; split_limits c; split_comparisons;
    cbn [tier_rank]; lia.
Qed.

Lemma getPerformanceTier_monotone_witness :
  (tier_rank (getPerformanceTier zero_invocations)
   <= tier_rank (getPerformanceTier
        (set_limits (<[INVOCATIONS := 1024%N]> (limits zero_invocations))
                    zero_invocations)))%nat.
Proof.
  apply (getPerformanceTier_monotone zero_invocations INVOCATIONS 0 1024).
  - reflexivity.
  - rewrite elem_of_cons. now left.
  - reflexivity.
  - vm_compute. discriminate.
Defined.

End Classifier.

(** ** The parameter optimizer *)

Section Optimizer.

Import GpuUtils.

Lemma min_or_else_capped (cap : N) (derived : option N) :
  JS.Math_min cap (JS.or_else derived cap) = capped cap derived.
Proof.
  unfold JS.Math_min, JS.or_else, capped.
  destruct derived as [[|p]|]; cbn; try apply N.min_id. reflexivity.
Qed.

Lemma capped_bounds (cap : N) (derived : option N) :
  (0 < cap)%N -> (0 < capped cap derived <= cap)%N.
Proof. unfold capped. destruct derived as [[|p]|]; lia. Qed.

Lemma parametersOf_unsupported (c : Capabilities) :
  supported c = false -> parametersOf c = fallback_parameters.
Proof. intros H. unfold parametersOf. now rewrite H. Qed.

(** C2, as stated: without [navigator.gpu] the probe leaves supported
    false, and the object returned for it has no performance tier at all
    (the property is not part of the returned literal), so its tier is
    not 'unavailable'. *)
Lemma unsupported_result_lacks_tier :
  supported (runFullCheck no_gpu_env) = false /\
  ~ (useGPU (getOptimizedGPUParameters no_gpu_env) = false /\
     performanceTier (getOptimizedGPUParameters no_gpu_env) = Some unavailable /\
     optimizedNB_ITER (getOptimizedGPUParameters no_gpu_env) = 256%N /\
     optimizedNB_THREAD (getOptimizedGPUParameters no_gpu_env) = 64%N).
Proof.
  split; [reflexivity|]. intros (_ & Htier & _).
  vm_compute in Htier. discriminate Htier.
Qed.

(** C2, amended: for every capability record with supported = false the
    result has useGPU = false, the reason 'WebGPU not supported',
    iteration count 256 and thread count 64, and carries no performance
    tier, GPU info or limits, whatever the other fields of the record
    are; so does [getOptimizedGPUParameters] whenever the probe resolves
    to such a record. *)
Theorem unsupported_parameters_fallback (c : Capabilities) :
  supported c = false ->
  parametersOf c
  = {| useGPU := false;
       reason := Some "WebGPU not supported";
       performanceTier := None;
       optimizedNB_ITER := 256;
       optimizedNB_THREAD := 64;
       gpuInfo := None;
       limits := None |} /\
  (forall env : Environment,
     runFullCheck env = c ->
     getOptimizedGPUParameters env = fallback_parameters).
Proof.
  intros H. split.
  - now apply parametersOf_unsupported.
  - intros env Henv. unfold getOptimizedGPUParameters. rewrite Henv.
    now apply parametersOf_unsupported.
Qed.

Lemma unsupported_parameters_fallback_witness :
  supported (runFullCheck no_gpu_env) = false /\
  getOptimizedGPUParameters no_gpu_env = fallback_parameters.
Proof.
  split; [reflexivity|].
  destruct (unsupported_parameters_fallback
              (runFullCheck no_gpu_env) eq_refl) as [_ Henv].
  exact (Henv no_gpu_env eq_refl).
Defined.

(** C8: at each of the tiers high, medium and low the iteration count is
    the minimum of the tier's cap and [floor(workgroupsPerDimension / d)]
    and the thread count the minimum of the tier's cap and the size-X
    limit, a derived value that is zero or absent giving the cap; both
    are therefore positive and at most the cap, and a
    workgroups-per-dimension limit of [0] at tier 'high' gives 512. *)
Theorem getOptimizedGPUParameters_capped
    (c : Capabilities) (t : PerformanceTier) :
  supported c = true ->
  getPerformanceTier c = t ->
  t ∈ [high; medium; low] ->
  optimizedNB_ITER (parametersOf c)
  = capped (iteration_cap t)
      ((fun w => (w / workgroups_divisor t)%N) <$> Checker.limits c !! WORKGROUPS) /\
  optimizedNB_THREAD (parametersOf c)
  = capped (thread_cap t) (Checker.limits c !! SIZE_X) /\
  (0 < optimizedNB_ITER (parametersOf c) <= iteration_cap t)%N /\
  (0 < optimizedNB_THREAD (parametersOf c) <= thread_cap t)%N /\
  (t = high -> Checker.limits c !! WORKGROUPS = Some 0%N ->
   optimizedNB_ITER (parametersOf c) = 512%N).
Proof.
  intros Hs Ht Hin.
  assert (Hiter : optimizedNB_ITER (parametersOf c)
                  = capped (iteration_cap t)
                      ((fun w => (w / workgroups_divisor t)%N)
                         <$> Checker.limits c !! WORKGROUPS)).
  { unfold parametersOf. rewrite Hs, Ht. cbn [negb].
    rewrite !elem_of_cons, elem_of_nil in Hin.
    destruct Hin as [-> | [-> | [-> | []]]];
      cbn [optimizedNB_ITER]; apply min_or_else_capped. }
  assert (Hthread : optimizedNB_THREAD (parametersOf c)
                    = capped (thread_cap t) (Checker.limits c !! SIZE_X)).
  { unfold parametersOf. rewrite Hs, Ht. cbn [negb].
    rewrite !elem_of_cons, elem_of_nil in Hin.
    destruct Hin as [-> | [-> | [-> | []]]];
      cbn [optimizedNB_THREAD]; apply min_or_else_capped. }
  split; [exact Hiter|]. split; [exact Hthread|].
  split; [|split].
  - rewrite Hiter. apply capped_bounds. destruct t; cbn; lia.
  - rewrite Hthread. apply capped_bounds. destruct t; cbn; lia.
  - intros -> Hw. rewrite Hiter, Hw. reflexivity.
Qed.

Lemma getOptimizedGPUParameters_capped_witness :
  getPerformanceTier zero_workgroups = high /\
  Checker.limits zero_workgroups !! WORKGROUPS = Some 0%N /\
  optimizedNB_ITER (parametersOf zero_workgroups) = 512%N.
Proof.
  split; [reflexivity|]. split; [reflexivity|].
  apply (getOptimizedGPUParameters_capped zero_workgroups high);
    try reflexivity.
  rewrite elem_of_cons. now left.
Defined.

End Optimizer.

(** ** The probe sequence *)

Section Probe.

Lemma ltQ_spec (a b : Q) : JS.ltQ a b = true <-> (a < b)%Q.
Proof.
  unfold JS.ltQ. rewrite negb_true_iff. split.
  - intros H. apply Qnot_le_lt. intros Hle.
    apply Qle_bool_iff in Hle. congruence.
  - intros H. destruct (Qle_bool b a) eqn:E; [|reflexivity].
    apply Qle_bool_iff in E. exfalso. exact (Qlt_not_le _ _ H E).
Qed.

Lemma ltQ_integer (version k : N) :
  JS.ltQ (as_Q version) (inject_Z (Z.of_N k)) = (version <? k)%N.
Proof.
  apply eq_true_iff_eq. rewrite ltQ_spec, N.ltb_lt.
  unfold as_Q. rewrite <- Zlt_Qlt. lia.
Qed.

(** From 2^53 on the Number value of an integer stays at or above 2^53. *)
Lemma to_double_large (n : N) :
  (2 ^ 53 <= n)%N ->
  match JS.to_double n with
  | JS.Finite m => (2 ^ 53 <= m)%N
  | JS.Infinity => True
  end.
Proof.
  intros Hn. unfold JS.to_double.
  destruct (N.ltb_spec n (2 ^ 53)) as [Hlt|_]; [lia|]. cbv zeta.
  set (e := (N.log2 n - 52)%N).
  set (q := (n / 2 ^ e)%N).
  match goal with
  | |- context [if ?b then (q + 1)%N else q] =>
      set (q' := if b then (q + 1)%N else q);
      assert (Hq' : (q <= q')%N) by (unfold q'; destruct b; lia)
  end.
  destruct (2 ^ 1024 <=? q' * 2 ^ e)%N; [exact I|].
  assert (Hlog : (53 <= N.log2 n)%N).
  { rewrite <- (N.log2_pow2 53) by lia. now apply N.log2_le_mono. }
  assert (He : (N.log2 n = 52 + e)%N) by (unfold e; lia).
  assert (Hpow : (2 ^ 52 * 2 ^ e <= n)%N).
  { rewrite <- N.pow_add_r, <- He. apply N.log2_spec. lia. }
  assert (Hpos : (2 ^ e <> 0)%N) by (apply N.pow_nonzero; lia).
  assert (Hq : (2 ^ 52 <= q)%N).
  { unfold q. rewrite <- (N.div_mul (2 ^ 52) (2 ^ e) Hpos).
    now apply N.Div0.div_le_mono. }
  assert (Htwo : (2 ^ 1 <= 2 ^ e)%N) by (apply N.pow_le_mono_r; lia).
  change (2 ^ 53)%N with (2 ^ 52 * 2 ^ 1)%N.
  apply N.mul_le_mono; lia.
Qed.

(** Below 2^53 a comparison sees the integer itself, and against a literal
    that is at most 2^53 it gives the same answer on a larger integer and
    on its Number value. *)
Lemma lt_literal_to_double (n : N) (k : Q) :
  (k <= inject_Z (Z.of_N (2 ^ 53)))%Q ->
  JS.lt_literal (JS.to_double n) k = JS.ltQ (as_Q n) k.
Proof.
  intros Hk. destruct (N.ltb_spec n (2 ^ 53)) as [Hlt|Hge].
  - unfold JS.to_double. destruct (N.ltb_spec n (2 ^ 53)); [reflexivity|lia].
  - assert (Hfalse : forall m : N, (2 ^ 53 <= m)%N -> JS.ltQ (as_Q m) k = false).
    { intros m Hm. apply not_true_is_false. rewrite ltQ_spec.
      apply Qle_not_lt. eapply Qle_trans; [exact Hk|].
      unfold as_Q. rewrite <- Zle_Qle. lia. }
    rewrite (Hfalse n Hge).
    pose proof (to_double_large n Hge) as Hlarge.
    destruct (JS.to_double n) as [m|]; [|reflexivity].
    exact (Hfalse m Hlarge).
Qed.

Lemma version_compared (tag userAgent : string) (k : Q) :
  (k <= inject_Z (Z.of_N (2 ^ 53)))%Q ->
  JS.lt_literal (version_after tag userAgent) k
  = JS.ltQ (as_Q match JS.match_digits_after tag userAgent with
                 | Some digits => JS.parse_digits 0%N digits
                 | None => 0%N
                 end) k.
Proof.
  intros Hk. unfold version_after.
  destruct (JS.match_digits_after tag userAgent) as [digits|]; [|reflexivity].
  now apply lt_literal_to_double.
Qed.

Lemma checkBrowserCompatibility_errors (env : Environment) (c : Capabilities) :
  errors (checkBrowserCompatibility env c)
  = (errors c ++ verdict (navigator_userAgent env))%list.
Proof.
  assert (H113 : (113 <= inject_Z (Z.of_N (2 ^ 53)))%Q)
    by (vm_compute; discriminate).
  assert (H164 : (164 # 10 <= inject_Z (Z.of_N (2 ^ 53)))%Q)
    by (vm_compute; discriminate).
  unfold checkBrowserCompatibility, verdict, recognized_family, parsed_version.
  cbn [List.find family_marker].
  destruct (JS.includes (navigator_userAgent env) "Chrome");
    [|destruct (JS.includes (navigator_userAgent env) "Firefox");
      [|destruct (JS.includes (navigator_userAgent env) "Safari");
        [|destruct (JS.includes (navigator_userAgent env) "Edge")]]];
    cbn [version_pattern minimum_version];
    rewrite ?(version_compared _ _ 113 H113),
            ?(version_compared _ _ (164 # 10) H164);
    try match goal with
      | |- context [JS.ltQ ?a ?b] => destruct (JS.ltQ a b)
      end;
    cbn [errors set_performanceInfo fail push_error push_reason
         set_errors set_reasons]; now rewrite ?app_nil_r.
Qed.

(** The compatibility check writes [reasons], [errors] and
    [performanceInfo] only. *)
Lemma checkBrowserCompatibility_frame (env : Environment) (c : Capabilities) :
  available (checkBrowserCompatibility env c) = available c /\
  supported (checkBrowserCompatibility env c) = supported c /\
  adapter (checkBrowserCompatibility env c) = adapter c /\
  device (checkBrowserCompatibility env c) = device c /\
  features (checkBrowserCompatibility env c) = features c /\
  limits (checkBrowserCompatibility env c) = limits c.
Proof.
  unfold checkBrowserCompatibility.
  repeat match goal with
    | |- context [if ?b then _ else _] => destruct b
    end; cbn; repeat split; reflexivity.
Qed.

(** What each later check does to the four fields of the chain. *)
Lemma checkAvailability_outcome (env : Environment) (c : Capabilities) :
  available (checkAvailability env c)
  = match navigator_gpu env with Some _ => true | None => available c end /\
  supported (checkAvailability env c) = supported c /\
  adapter (checkAvailability env c) = adapter c /\
  device (checkAvailability env c) = device c.
Proof.
  unfold checkAvailability.
  destruct (navigator_gpu env); repeat split; reflexivity.
Qed.

Lemma checkAdapter_outcome (env : Environment) (c : Capabilities) :
  available (checkAdapter env c) = available c /\
  device (checkAdapter env c) = device c /\
  adapter (checkAdapter env c)
  = match acquired_adapter env with Some a => Some a | None => adapter c end /\
  supported (checkAdapter env c)
  = match acquired_adapter env with Some _ => true | None => supported c end.
Proof.
  unfold checkAdapter, call_requestAdapter, acquired_adapter.
  destruct (navigator_gpu env) as [[[[a|]|m]]|]; repeat split; reflexivity.
Qed.

Lemma checkDevice_outcome (c : Capabilities) :
  available (checkDevice c) = available c /\
  supported (checkDevice c) = supported c /\
  adapter (checkDevice c) = adapter c /\
  device (checkDevice c)
  = match adapter c with
    | Some a =>
        match adapter_requestDevice a with
        | JS.Returns (Some d) => Some d
        | JS.Returns None => device c
        | JS.Throws _ => device c
        end
    | None => device c
    end.
Proof.
  unfold checkDevice.
  destruct (adapter c) as [a|] eqn:Ha;
    [destruct (adapter_requestDevice a) as [[d|]|m];
     [destruct (device_features d) as [f|mf];
      [destruct (device_limits d) as [l|ml]|]| |]|];
    repeat split; first [reflexivity | exact Ha].
Qed.

Lemma testComputeShader_outcome (c : Capabilities) :
  available (testComputeShader c) = available c /\
  supported (testComputeShader c) = supported c /\
  adapter (testComputeShader c) = adapter c /\
  device (testComputeShader c) = device c.
Proof.
  unfold testComputeShader.
  destruct (device c) as [d|] eqn:Hd; [destruct (compile_test_shader d)|];
    repeat split; first [reflexivity | exact Hd].
Qed.

(** In a secure context the availability, adapter and device checks
    decide the record, whatever the compatibility check recorded. *)
Lemma secure_probe_outcome (env : Environment) :
  window_isSecureContext env = true ->
  (available (runFullCheck env) = true <-> is_Some (navigator_gpu env)) /\
  (supported (runFullCheck env) = true <-> is_Some (acquired_adapter env)) /\
  adapter (runFullCheck env) = acquired_adapter env /\
  device (runFullCheck env) = acquired_device env.
Proof.
  intros Hsecure. unfold runFullCheck, checkSecureContext.
  rewrite Hsecure. cbn [negb].
  destruct (checkBrowserCompatibility_frame env initial)
    as (Hav1 & Hsu1 & Had1 & Hde1 & _).
  set (c1 := checkBrowserCompatibility env initial) in *.
  destruct (checkAvailability_outcome env c1) as (Hav2 & Hsu2 & Had2 & Hde2).
  set (c2 := checkAvailability env c1) in *.
  destruct (checkAdapter_outcome env c2) as (Hav3 & Hde3 & Had3 & Hsu3).
  set (c3 := checkAdapter env c2) in *.
  destruct (checkDevice_outcome c3) as (Hav4 & Hsu4 & Had4 & Hde4).
  set (c4 := checkDevice c3) in *.
  destruct (testComputeShader_outcome c4) as (Hav5 & Hsu5 & Had5 & Hde5).
  rewrite Hav1 in Hav2. rewrite Hsu1 in Hsu2. rewrite Had1 in Had2.
  rewrite Hde1 in Hde2. cbn [initial available supported adapter device] in *.
  unfold acquired_device. unfold acquired_adapter in *.
  destruct (navigator_gpu env) as [g|].
  - rewrite Hav2. cbn [negb].
    destruct (gpu_requestAdapter g) as [[a|]|m].
    + rewrite Hsu3. cbn [negb]. rewrite Had3 in Hde4.
      assert (Hresult :
        forall r, available r = available c4 -> supported r = supported c4 ->
                  adapter r = adapter c4 -> device r = device c4 ->
          (available r = true <-> is_Some (Some g)) /\
          (supported r = true <-> is_Some (Some a)) /\
          adapter r = Some a /\
          device r = match adapter_requestDevice a with
                     | JS.Returns (Some d) => Some d
                     | JS.Returns None => None
                     | JS.Throws _ => None
                     end).
      { intros r -> -> -> ->.
        rewrite Hav4, Hsu4, Had4, Hde4, Hav3, Hsu3, Had3, Hde3, Hav2, Hde2.
        repeat split; eauto. }
      destruct (device c4) eqn:Hd4; apply Hresult;
        first [reflexivity | assumption | congruence].
    + rewrite Hsu3, Hsu2. cbn [negb].
      rewrite Hsu3, Hsu2, Hav3, Hav2, Had3, Had2, Hde3, Hde2.
      repeat split; eauto; try discriminate; intros [x Hx]; discriminate Hx.
    + rewrite Hsu3, Hsu2. cbn [negb].
      rewrite Hsu3, Hsu2, Hav3, Hav2, Had3, Had2, Hde3, Hde2.
      repeat split; eauto; try discriminate; intros [x Hx]; discriminate Hx.
  - rewrite Hav2. cbn [negb]. rewrite Hav2, Hsu2, Had2, Hde2.
    repeat split; try discriminate; intros [x Hx]; discriminate Hx.
Qed.

(** The error codes each later check leaves in the record. *)
Lemma checkAvailability_errors (env : Environment) (c : Capabilities) :
  errors (checkAvailability env c)
  = match navigator_gpu env with
    | Some _ => []
    | None => ["BROWSER_NOT_SUPPORTED"]
    end.
Proof. unfold checkAvailability. destruct (navigator_gpu env); reflexivity. Qed.

Lemma checkAdapter_errors (env : Environment) (c : Capabilities) :
  errors (checkAdapter env c)
  = (errors c ++ match call_requestAdapter env with
                 | JS.Returns (Some _) => []
                 | JS.Returns None => ["NO_ADAPTER"]
                 | JS.Throws _ => ["ADAPTER_ERROR"]
                 end)%list.
Proof.
  unfold checkAdapter.
  destruct (call_requestAdapter env) as [[a|]|m]; try reflexivity.
  symmetry. apply app_nil_r.
Qed.

Lemma checkDevice_errors (c : Capabilities) :
  errors (checkDevice c)
  = (errors c ++ match adapter c with
                 | Some a =>
                     match adapter_requestDevice a with
                     | JS.Returns (Some d) =>
                         match capabilities_failure d with
                         | Some _ => ["DEVICE_ERROR"]
                         | None => []
                         end
                     | JS.Returns None => ["DEVICE_CREATION_FAILED"]
                     | JS.Throws _ => ["DEVICE_ERROR"]
                     end
                 | None => []
                 end)%list.
Proof.
  unfold checkDevice, capabilities_failure.
  destruct (adapter c) as [a|];
    [destruct (adapter_requestDevice a) as [[d|]|m];
     [destruct (device_features d) as [f|mf];
      [destruct (device_limits d) as [l|ml]|]| |]|];
    try reflexivity; symmetry; apply app_nil_r.
Qed.

Lemma testComputeShader_errors (c : Capabilities) :
  errors (testComputeShader c)
  = (errors c ++ match device c with
                 | Some d => shader_errors d
                 | None => []
                 end)%list.
Proof.
  unfold testComputeShader, shader_errors, shader_failure, compile_test_shader.
  destruct (device c) as [d|];
    [destruct (device_createShaderModule d);
     [destruct (device_createComputePipeline d)|]|];
    try reflexivity; symmetry; apply app_nil_r.
Qed.

(** [checkAvailability] starts by emptying [reasons] and [errors], so the
    record [runFullCheck] returns in a secure context carries the codes of
    the availability, adapter, device and shader checks only: what the
    compatibility check recorded before is gone. *)
Lemma secure_probe_errors (env : Environment) :
  window_isSecureContext env = true ->
  errors (runFullCheck env) = probe_errors env.
Proof.
  intros Hsecure. unfold runFullCheck, checkSecureContext.
  rewrite Hsecure. cbn [negb].
  destruct (checkBrowserCompatibility_frame env initial)
    as (Hav1 & Hsu1 & Had1 & Hde1 & _).
  set (c1 := checkBrowserCompatibility env initial) in *.
  destruct (checkAvailability_outcome env c1) as (Hav2 & Hsu2 & Had2 & Hde2).
  pose proof (checkAvailability_errors env c1) as Her2.
  set (c2 := checkAvailability env c1) in *.
  destruct (checkAdapter_outcome env c2) as (Hav3 & Hde3 & Had3 & Hsu3).
  pose proof (checkAdapter_errors env c2) as Her3.
  set (c3 := checkAdapter env c2) in *.
  destruct (checkDevice_outcome c3) as (Hav4 & Hsu4 & Had4 & Hde4).
  pose proof (checkDevice_errors c3) as Her4.
  set (c4 := checkDevice c3) in *.
  pose proof (testComputeShader_errors c4) as Her5.
  rewrite Hav1 in Hav2. rewrite Hsu1 in Hsu2. rewrite Had1 in Had2.
  rewrite Hde1 in Hde2. cbn [initial available supported adapter device] in *.
  unfold probe_errors. unfold acquired_adapter, call_requestAdapter in *.
  destruct (navigator_gpu env) as [g|].
  - rewrite Hav2. cbn [negb]. rewrite Her2 in Her3. cbn [app] in Her3.
    destruct (gpu_requestAdapter g) as [[a|]|m].
    + rewrite Hsu3. cbn [negb]. rewrite Had3 in Her4, Hde4.
      rewrite Her3 in Her4. cbn [app] in Her4.
      destruct (adapter_requestDevice a) as [[d|]|m'].
      * rewrite Hde4, Her5, Hde4, Her4.
        destruct (capabilities_failure d); reflexivity.
      * rewrite Hde4, Hde3, Hde2. exact Her4.
      * rewrite Hde4, Hde3, Hde2. exact Her4.
    + rewrite Hsu3, Hsu2. cbn [negb]. exact Her3.
    + rewrite Hsu3, Hsu2. cbn [negb]. exact Her3.
  - rewrite Hav2. cbn [negb]. exact Her2.
Qed.

Lemma compatibility_verdict_not_returned (env : Environment) :
  window_isSecureContext env = true ->
  ("BROWSER_VERSION_TOO_OLD" ∉ errors (runFullCheck env)) /\
  ("UNSUPPORTED_BROWSER" ∉ errors (runFullCheck env)).
Proof.
  intros Hsecure. rewrite (secure_probe_errors env Hsecure).
  unfold probe_errors.
  destruct (navigator_gpu env) as [g|];
    [destruct (gpu_requestAdapter g) as [[a|]|m];
     [destruct (adapter_requestDevice a) as [[d|]|m'];
      [unfold shader_errors;
       destruct (capabilities_failure d), (shader_failure d)|..]|..]|];
    split; intros H;
    repeat (apply elem_of_cons in H as [H|H]; [discriminate H|]);
    inversion H.
Qed.

Lemma insecure_short_circuit (env : Environment) :
  window_isSecureContext env = false ->
  runFullCheck env
  = fail "WebGPU requires a secure context (HTTPS, localhost, or file://)"
         "INSECURE_CONTEXT" initial.
Proof.
  intros H. unfold runFullCheck, checkSecureContext. now rewrite H.
Qed.

(** C4: the compatibility check appends BROWSER_VERSION_TOO_OLD exactly
    when the user agent belongs to a recognized family and the version
    read from it is below that family's minimum (113 for Chrome, Firefox
    and Edge, 16.4 for Safari), and UNSUPPORTED_BROWSER exactly when no
    family is recognized; a version that cannot be read is [0] and is
    too old; and in a secure context the availability, adapter and
    device checks still decide the record. *)
Theorem checkBrowserCompatibility_verdict
    (env : Environment) (c : Capabilities) :
  errors (checkBrowserCompatibility env c)
  = (errors c ++ recorded_errors env c)%list /\
  ("BROWSER_VERSION_TOO_OLD" ∈ recorded_errors env c <->
     exists f : RuntimeFamily,
       recognized_family (navigator_userAgent env) = Some f /\
       (as_Q (parsed_version f (navigator_userAgent env)) < minimum_version f)%Q) /\
  ("UNSUPPORTED_BROWSER" ∈ recorded_errors env c <->
     recognized_family (navigator_userAgent env) = None) /\
  (forall f : RuntimeFamily,
     recognized_family (navigator_userAgent env) = Some f ->
     JS.match_digits_after (version_pattern f) (navigator_userAgent env) = None ->
     parsed_version f (navigator_userAgent env) = 0%N /\
     "BROWSER_VERSION_TOO_OLD" ∈ recorded_errors env c) /\
  (window_isSecureContext env = true ->
     (available (runFullCheck env) = true <-> is_Some (navigator_gpu env)) /\
     adapter (runFullCheck env) = acquired_adapter env /\
     device (runFullCheck env) = acquired_device env).
Proof.
  assert (Hrec : recorded_errors env c = verdict (navigator_userAgent env)).
  { unfold recorded_errors. rewrite checkBrowserCompatibility_errors.
    now rewrite drop_app_length. }
  rewrite Hrec. unfold verdict.
  split; [apply checkBrowserCompatibility_errors|].
  split; [|split; [|split]].
  - destruct (recognized_family (navigator_userAgent env)) as [f|].
    + destruct (JS.ltQ _ _) eqn:E.
      * split; [|intros _; rewrite list_elem_of_singleton; reflexivity].
        intros _. exists f. split; [reflexivity|]. now apply ltQ_spec.
      * split; [intros H; inversion H|].
        intros (g & [= <-] & Hlt). apply ltQ_spec in Hlt. congruence.
    + split.
      * rewrite list_elem_of_singleton. discriminate.
      * intros (g & [=] & _).
  - destruct (recognized_family (navigator_userAgent env)) as [f|].
    + split; [|discriminate].
      destruct (JS.ltQ _ _); intros H;
        [apply list_elem_of_singleton in H; discriminate H | inversion H].
    + split; [reflexivity|]. intros _. now apply list_elem_of_singleton.
  - intros f Hf Hnone. rewrite Hf. unfold parsed_version. rewrite Hnone.
    split; [reflexivity|].
    replace (JS.ltQ (as_Q 0) (minimum_version f)) with true
      by (now destruct f).
    now apply list_elem_of_singleton.
  - intros Hsecure.
    destruct (secure_probe_outcome env Hsecure) as (Hav & _ & Had & Hde).
    auto.
Qed.

Lemma checkBrowserCompatibility_verdict_witness :
  "BROWSER_VERSION_TOO_OLD" ∈ recorded_errors unparsable_firefox_env initial /\
  device (runFullCheck sample_env) = Some sample_device.
Proof.
  destruct (checkBrowserCompatibility_verdict unparsable_firefox_env initial)
    as (_ & _ & _ & Hparse & _).
  destruct (checkBrowserCompatibility_verdict sample_env initial)
    as (_ & _ & _ & _ & Hrun).
  split.
  - apply (Hparse Firefox); reflexivity.
  - apply Hrun. reflexivity.
Defined.

(** C6: in every record [runFullCheck] returns, a device being present
    implies supported = true, and supported = true implies
    available = true. *)
Theorem runFullCheck_implication_chain (env : Environment) :
  (is_Some (device (runFullCheck env)) -> supported (runFullCheck env) = true) /\
  (supported (runFullCheck env) = true -> available (runFullCheck env) = true).
Proof.
  destruct (window_isSecureContext env) eqn:Hsecure.
  - destruct (secure_probe_outcome env Hsecure) as (Hav & Hsu & _ & Hde).
    rewrite Hav, Hsu, Hde. unfold acquired_device, acquired_adapter.
    split.
    + intros [d Hd]. destruct (navigator_gpu env) as [g|]; [|discriminate].
      destruct (gpu_requestAdapter g) as [[a|]|]; try discriminate. eauto.
    + intros [a Ha]. destruct (navigator_gpu env) as [g|]; [eauto|discriminate].
  - rewrite (insecure_short_circuit env Hsecure). cbn.
    split; [intros [d Hd]|]; discriminate.
Qed.

Lemma runFullCheck_implication_chain_witness :
  is_Some (device (runFullCheck sample_env)) /\
  supported (runFullCheck sample_env) = true /\
  available (runFullCheck sample_env) = true.
Proof.
  assert (Hdevice : is_Some (device (runFullCheck sample_env)))
    by (exists sample_device; reflexivity).
  destruct (runFullCheck_implication_chain sample_env) as [Hsu Hav].
  split; [exact Hdevice|]. split; [exact (Hsu Hdevice)|].
  exact (Hav (Hsu Hdevice)).
Defined.

(** C7: outside a secure context [runFullCheck] returns the record whose
    reasons hold the insecure-context diagnostic alone, whose errors hold
    INSECURE_CONTEXT alone, with available and supported false and with
    no adapter, device, feature, limit or performance info. *)
Theorem runFullCheck_insecure_context (env : Environment) :
  window_isSecureContext env = false ->
  runFullCheck env
  = {| available := false;
       supported := false;
       adapter := None;
       device := None;
       reasons :=
         ["WebGPU requires a secure context (HTTPS, localhost, or file://)"];
       features := [];
       limits := ∅;
       performanceInfo := ∅;
       errors := ["INSECURE_CONTEXT"] |}.
Proof. intros H. now rewrite (insecure_short_circuit env H). Qed.

Lemma runFullCheck_insecure_context_witness :
  reasons (runFullCheck insecure_env)
  = ["WebGPU requires a secure context (HTTPS, localhost, or file://)"] /\
  errors (runFullCheck insecure_env) = ["INSECURE_CONTEXT"].
Proof.
  rewrite (runFullCheck_insecure_context insecure_env eq_refl).
  split; reflexivity.
Defined.

(** C9: [testComputeShader] leaves available, supported, the adapter, the
    device, the features, the limits and the performance info as they
    were.  When the device's [createShaderModule] throws, or it returns and
    [createComputePipeline] throws, the diagnostic with the thrown message
    is appended to reasons and SHADER_COMPILATION_FAILED to errors; when
    both return, only the informational reason is appended and errors stay
    as they were; without a device the record is unchanged. *)
Theorem testComputeShader_frame (c : Capabilities) :
  available (testComputeShader c) = available c /\
  supported (testComputeShader c) = supported c /\
  adapter (testComputeShader c) = adapter c /\
  device (testComputeShader c) = device c /\
  features (testComputeShader c) = features c /\
  limits (testComputeShader c) = limits c /\
  performanceInfo (testComputeShader c) = performanceInfo c /\
  match device c with
  | None => testComputeShader c = c
  | Some d =>
      match device_createShaderModule d with
      | JS.Throws message =>
          reasons (testComputeShader c)
          = (reasons c ++ ["Compute shader test failed: " +:+ message])%list /\
          errors (testComputeShader c)
          = (errors c ++ ["SHADER_COMPILATION_FAILED"])%list
      | JS.Returns _ =>
          match device_createComputePipeline d with
          | JS.Throws message =>
              reasons (testComputeShader c)
              = (reasons c
                 ++ ["Compute shader test failed: " +:+ message])%list /\
              errors (testComputeShader c)
              = (errors c ++ ["SHADER_COMPILATION_FAILED"])%list
          | JS.Returns _ =>
              reasons (testComputeShader c)
              = (reasons c
                 ++ ["Basic compute shader compilation successful"])%list /\
              errors (testComputeShader c) = errors c
          end
      end
  end.
Proof.
  unfold testComputeShader, compile_test_shader.
  destruct (device c) as [d|] eqn:Hd;
    [destruct (device_createShaderModule d);
     [destruct (device_createComputePipeline d)|]|];
    repeat split; try reflexivity; exact Hd.
Qed.

Lemma testComputeShader_frame_witness :
  let c := set_features ["shader-f16"]
             (set_device (Some unbuildable_device)
                (set_supported true initial)) in
  supported (testComputeShader c) = true /\
  device (testComputeShader c) = Some unbuildable_device /\
  features (testComputeShader c) = ["shader-f16"] /\
  reasons (testComputeShader c)
  = ["Compute shader test failed: Invalid ShaderModule"] /\
  errors (testComputeShader c) = ["SHADER_COMPILATION_FAILED"].
Proof.
  intros c.
  destruct (testComputeShader_frame c) as (_ & Hs & _ & Hd & Hf & _ & _ & H).
  destruct H as [Hr He].
  exact (conj Hs (conj Hd (conj Hf (conj Hr He)))).
Defined.

End Probe.

(** ** The record of a probe, in closed form *)

Section ProbeRecord.

Lemma checkBrowserCompatibility_performanceInfo
    (env : Environment) (c : Capabilities) :
  performanceInfo (checkBrowserCompatibility env c)
  = <["browser" := browser_info (navigator_userAgent env)]> (performanceInfo c).
Proof.
  unfold checkBrowserCompatibility, browser_info, recognized_family,
    parsed_version, version_after.
  cbn [List.find family_marker].
  destruct (JS.includes (navigator_userAgent env) "Chrome");
    [|destruct (JS.includes (navigator_userAgent env) "Firefox");
      [|destruct (JS.includes (navigator_userAgent env) "Safari");
        [|destruct (JS.includes (navigator_userAgent env) "Edge")]]];
    cbn [version_pattern family_marker];
    repeat match goal with
      | |- context [if ?b then _ else _] => destruct b
      end; reflexivity.
Qed.

Lemma checkAvailability_record (env : Environment) (c : Capabilities) :
  checkAvailability env c
  = match navigator_gpu env with
    | Some _ =>
        {| available := true; supported := supported c;
           adapter := adapter c; device := device c;
           reasons := []; features := features c; limits := limits c;
           performanceInfo := performanceInfo c; errors := [] |}
    | None =>
        {| available := available c; supported := supported c;
           adapter := adapter c; device := device c;
           reasons := ["WebGPU API not available - navigator.gpu is undefined"];
           features := features c; limits := limits c;
           performanceInfo := performanceInfo c;
           errors := ["BROWSER_NOT_SUPPORTED"] |}
    end.
Proof. unfold checkAvailability. destruct (navigator_gpu env); reflexivity. Qed.

(** The record right after the compatibility and availability checks. *)
Lemma availability_checked (env : Environment) :
  checkAvailability env (checkBrowserCompatibility env initial)
  = match navigator_gpu env with
    | Some _ =>
        {| available := true; supported := false;
           adapter := None; device := None;
           reasons := []; features := []; limits := ∅;
           performanceInfo :=
             <["browser" := browser_info (navigator_userAgent env)]> ∅;
           errors := [] |}
    | None =>
        {| available := false; supported := false;
           adapter := None; device := None;
           reasons := ["WebGPU API not available - navigator.gpu is undefined"];
           features := []; limits := ∅;
           performanceInfo :=
             <["browser" := browser_info (navigator_userAgent env)]> ∅;
           errors := ["BROWSER_NOT_SUPPORTED"] |}
    end.
Proof.
  rewrite checkAvailability_record.
  destruct (checkBrowserCompatibility_frame env initial)
    as (-> & -> & -> & -> & -> & ->).
  rewrite checkBrowserCompatibility_performanceInfo. reflexivity.
Qed.

Lemma runFullCheck_closed_form (env : Environment) :
  window_isSecureContext env = true ->
  runFullCheck env = probe_record env.
Proof.
  intros Hsecure. unfold runFullCheck, checkSecureContext.
  rewrite Hsecure. cbn [negb]. rewrite availability_checked.
  unfold probe_record.
  destruct (navigator_gpu env) as [g|] eqn:Hg; cbn [available negb];
    [|reflexivity].
  unfold checkAdapter, call_requestAdapter. rewrite Hg.
  destruct (gpu_requestAdapter g) as [[a|]|m]; try reflexivity.
  cbn [supported set_supported set_adapter set_performanceInfo negb].
  unfold checkDevice.
  cbn [adapter set_supported set_adapter set_performanceInfo].
  destruct (adapter_requestDevice a) as [[d|]|m']; try reflexivity.
  unfold testComputeShader, compile_test_shader, capabilities_failure,
    shader_reason, shader_errors, shader_failure, read_features, read_limits.
  destruct (device_features d) as [f|mf];
    [destruct (device_limits d) as [l|ml]|];
    cbn [device set_device set_features set_limits fail push_reason
         push_error set_reasons set_errors];
    (destruct (device_createShaderModule d);
     [destruct (device_createComputePipeline d)|]); reflexivity.
Qed.

End ProbeRecord.

(** ** What a probe returns *)

Ltac probe_step :=
  cbn [available supported adapter device reasons features limits
       performanceInfo errors length].

(** The cases of a probe, stage by stage. *)
Ltac probe_cases env :=
  unfold probe_record, acquired_device, acquired_adapter;
  destruct (navigator_gpu env) as [?g|]; probe_step;
  [ match goal with
    | |- context [gpu_requestAdapter ?g] =>
        destruct (gpu_requestAdapter g) as [[?a|]|?m]; probe_step
    end;
    [ match goal with
      | |- context [adapter_requestDevice ?a] =>
          destruct (adapter_requestDevice a) as [[?d|]|?m]; probe_step
      end;
      [ | | ] | | ] | ].

(** The cases of what a device lets the probe read and build. *)
Ltac device_cases d :=
  unfold capabilities_failure, shader_reason, shader_errors, shader_failure,
    read_features, read_limits;
  destruct (device_features d) as [?f|?m] eqn:?Hfeatures;
  [destruct (device_limits d) as [?l|?m] eqn:?Hlimits|];
  (destruct (device_createShaderModule d) as [?u|?m] eqn:?Hmodule;
   [destruct (device_createComputePipeline d) as [?u|?m] eqn:?Hpipeline|]);
  probe_step.

Section ProbeResults.

Lemma or_elseS_nonempty (x : option string) (d : string) :
  d <> "" -> JS.or_elseS x d <> "".
Proof. intros Hd. unfold JS.or_elseS. now destruct x as [[|a s]|]. Qed.

Lemma copy_from_lookup (names : list string) (l : gmap string N) (k : string) :
  (list_to_map (omap (fun n => (fun v => (n, v)) <$> l !! n) names)
     : gmap string N) !! k
  = if decide (k ∈ names) then l !! k else None.
Proof.
  induction names as [|n names IH]; cbn [omap list_omap].
  - rewrite list_to_map_nil, lookup_empty.
    destruct (decide (k ∈ [])) as [H|]; [|reflexivity].
    now apply elem_of_nil in H.
  - assert (Hhead : forall o : option N,
              (if decide (k ∈ names) then l !! k else None) = o ->
              (k = n -> l !! n = None -> o = None) ->
              (k <> n -> True) ->
              (if decide (k ∈ n :: names) then l !! k else None)
              = if decide (k = n) then l !! k else o).
    { intros o Ho Hnone _. destruct (decide (k = n)) as [->|Hne].
      - destruct (decide (n ∈ n :: names)) as [_|Hout]; [reflexivity|].
        exfalso. apply Hout. rewrite elem_of_cons. now left.
      - rewrite <- Ho.
        destruct (decide (k ∈ names)) as [Hin|Hout];
          destruct (decide (k ∈ n :: names)) as [Hin'|Hout'];
          try reflexivity.
        + exfalso. apply Hout'. rewrite elem_of_cons. now right.
        + exfalso. apply elem_of_cons in Hin' as [?|?]; congruence. }
    destruct (l !! n) as [v|] eqn:Hv; cbn [fmap option_fmap option_map].
    + rewrite list_to_map_cons. cbn [fst snd].
      rewrite (Hhead _ eq_refl) by (congruence || trivial).
      destruct (decide (k = n)) as [->|Hne].
      * now rewrite lookup_insert_eq.
      * now rewrite lookup_insert_ne by congruence.
    + rewrite IH.
      destruct (decide (k = n)) as [->|Hne].
      * destruct (decide (n ∈ n :: names)) as [_|Hout];
          [|exfalso; apply Hout; rewrite elem_of_cons; now left].
        rewrite Hv. now destruct (decide (n ∈ names)).
      * destruct (decide (k ∈ names)) as [Hin|Hout];
          destruct (decide (k ∈ n :: names)) as [Hin'|Hout'];
          try reflexivity.
        -- exfalso. apply Hout'. rewrite elem_of_cons. now right.
        -- exfalso. apply elem_of_cons in Hin' as [?|?]; congruence.
Qed.

(** X1: one run of [runFullCheck] on a fresh checker, not interleaved with
    another run, returns one or two reasons and never more error codes than
    reasons.  It returns two reasons exactly when, in a secure context, a
    device was acquired whose features or limits cannot be read: the
    device check then records its failure and the shader test still adds
    its own reason.  It returns no error code exactly when the context is
    secure, a device was acquired, its features and limits can be read,
    and both [createShaderModule] and [createComputePipeline] return. *)
Theorem runFullCheck_one_diagnostic (env : Environment) :
  (1 <= length (reasons (runFullCheck env)) <= 2)%nat /\
  (length (errors (runFullCheck env))
   <= length (reasons (runFullCheck env)))%nat /\
  (length (reasons (runFullCheck env)) = 2%nat <->
   window_isSecureContext env = true /\
   exists d, acquired_device env = Some d /\
             ~ (exists f l, device_features d = JS.Returns f /\
                            device_limits d = JS.Returns l)) /\
  (errors (runFullCheck env) = [] <->
   window_isSecureContext env = true /\
   exists d, acquired_device env = Some d /\
             (exists f l, device_features d = JS.Returns f /\
                          device_limits d = JS.Returns l) /\
             device_createShaderModule d = JS.Returns tt /\
             device_createComputePipeline d = JS.Returns tt).
Proof.
  destruct (window_isSecureContext env) eqn:Hsecure.
  - rewrite (runFullCheck_closed_form env Hsecure).
    probe_cases env;
      [match goal with d : GPUDevice |- _ => device_cases d end|..];
      repeat match goal with u : unit |- _ => destruct u end;
      (split; [lia|]); (split; [lia|]);
      (split;
       [ split;
         [ intros He; first
             [ discriminate He
             | split; [reflexivity|]; eexists; split; [reflexivity|];
               intros (f' & l' & Hf & Hl); congruence ]
         | intros (_ & d' & Hd & Hn); first
             [ reflexivity
             | discriminate Hd
             | exfalso; injection Hd as <-; apply Hn; eauto ] ]
       | split;
         [ intros He; first
             [ discriminate He
             | split; [reflexivity|]; eexists; split; [reflexivity|];
               split; [eauto|split; assumption] ]
         | intros (_ & d' & Hd & (f' & l' & Hf & Hl) & Hm & Hp);
           first [reflexivity | congruence] ] ]).
  - rewrite (insecure_short_circuit env Hsecure). cbn.
    split; [lia|]. split; [lia|].
    split; (split; [discriminate|]); intros (H & _); discriminate H.
Qed.

Lemma runFullCheck_one_diagnostic_witness :
  length (reasons (runFullCheck (device_env opaque_device))) = 2%nat.
Proof.
  apply (runFullCheck_one_diagnostic (device_env opaque_device)).
  split; [reflexivity|]. exists opaque_device. split; [reflexivity|].
  intros (f & l & Hf & _). discriminate Hf.
Defined.

(** X2: in a secure context the record returned does not depend on the user
    agent, except for the browser entry of the performance info when no
    adapter was acquired: with an adapter the whole record is the same for
    every user agent, and the codes of the compatibility check are never
    among the errors returned. *)
Theorem runFullCheck_ignores_userAgent
    (env : Environment) (userAgent : string) :
  window_isSecureContext env = true ->
  available (runFullCheck (with_userAgent userAgent env))
  = available (runFullCheck env) /\
  supported (runFullCheck (with_userAgent userAgent env))
  = supported (runFullCheck env) /\
  adapter (runFullCheck (with_userAgent userAgent env))
  = adapter (runFullCheck env) /\
  device (runFullCheck (with_userAgent userAgent env))
  = device (runFullCheck env) /\
  reasons (runFullCheck (with_userAgent userAgent env))
  = reasons (runFullCheck env) /\
  features (runFullCheck (with_userAgent userAgent env))
  = features (runFullCheck env) /\
  limits (runFullCheck (with_userAgent userAgent env))
  = limits (runFullCheck env) /\
  errors (runFullCheck (with_userAgent userAgent env))
  = errors (runFullCheck env) /\
  (is_Some (acquired_adapter env) ->
   runFullCheck (with_userAgent userAgent env) = runFullCheck env) /\
  ("BROWSER_VERSION_TOO_OLD" ∉ errors (runFullCheck env)) /\
  ("UNSUPPORTED_BROWSER" ∉ errors (runFullCheck env)).
Proof.
  intros Hsecure.
  rewrite (runFullCheck_closed_form (with_userAgent userAgent env) Hsecure).
  rewrite (runFullCheck_closed_form env Hsecure).
  unfold probe_record at 1 3 5 7 9 11 13 15 17.
  cbn [with_userAgent navigator_gpu navigator_userAgent].
  probe_cases env;
    [match goal with d : GPUDevice |- _ => device_cases d end|..];
    repeat split; try reflexivity;
    try (intros [x Hx]; discriminate Hx);
    intros H; repeat (apply elem_of_cons in H as [H|H]; [discriminate H|]);
    inversion H.
Qed.

Lemma runFullCheck_ignores_userAgent_witness :
  runFullCheck (with_userAgent "Mozilla/5.0 Firefox/120.0" sample_env)
  = runFullCheck sample_env.
Proof.
  apply (runFullCheck_ignores_userAgent sample_env); [reflexivity|].
  exists sample_adapter. reflexivity.
Defined.

Lemma adapter_report_lookup (a : GPUAdapter) :
  adapter_report a !! "vendor"
  = Some (JS.or_elseS (adapter_info a ≫= info_vendor) "Unknown") /\
  adapter_report a !! "architecture"
  = Some (JS.or_elseS (adapter_info a ≫= info_architecture) "Unknown") /\
  adapter_report a !! "device"
  = Some (JS.or_elseS (adapter_info a ≫= info_device) "Unknown") /\
  adapter_report a !! "description"
  = Some (JS.or_elseS (adapter_info a ≫= info_description) "Unknown") /\
  (forall k, k ∈ ["vendor"; "architecture"; "device"; "description"] ->
     exists v, adapter_report a !! k = Some v /\ v <> "") /\
  (forall k, k ∉ ["vendor"; "architecture"; "device"; "description"] ->
     adapter_report a !! k = None).
Proof.
  unfold adapter_report. cbv zeta.
  repeat split.
  - rewrite lookup_insert_eq. now destruct (adapter_info a).
  - rewrite lookup_insert_ne by discriminate. rewrite lookup_insert_eq.
    now destruct (adapter_info a).
  - rewrite !lookup_insert_ne by discriminate. rewrite lookup_insert_eq.
    now destruct (adapter_info a).
  - rewrite !lookup_insert_ne by discriminate. rewrite lookup_insert_eq.
    now destruct (adapter_info a).
  - intros k Hk. rewrite !elem_of_cons, elem_of_nil in Hk.
    destruct Hk as [-> | [-> | [-> | [-> | []]]]];
      rewrite ?lookup_insert_ne by discriminate;
      rewrite lookup_insert_eq; eexists; (split; [reflexivity|]);
      now apply or_elseS_nonempty.
  - intros k Hk. rewrite !not_elem_of_cons in Hk.
    destruct Hk as (? & ? & ? & ? & _).
    rewrite !lookup_insert_ne by congruence. apply lookup_empty.
Qed.

Lemma no_limits_parameters (c : Capabilities) :
  supported c = true -> limits c = ∅ ->
  getPerformanceTier c = unknown /\
  GpuUtils.parametersOf c
  = {| GpuUtils.useGPU := true;
       GpuUtils.reason := None;
       GpuUtils.performanceTier := Some unknown;
       GpuUtils.optimizedNB_ITER := 256;
       GpuUtils.optimizedNB_THREAD := 64;
       GpuUtils.gpuInfo := Some (performanceInfo c);
       GpuUtils.limits := Some ∅ |}.
Proof.
  intros Hs Hl.
  assert (Ht : getPerformanceTier c = unknown).
  { unfold getPerformanceTier. rewrite Hs, Hl. cbn [negb].
    rewrite lookup_empty. reflexivity. }
  split; [exact Ht|].
  unfold GpuUtils.parametersOf. rewrite Hs, Ht, Hl. reflexivity.
Qed.

(** X3: when [requestAdapter()] throws in a secure context, the record has
    ADAPTER_ERROR as its only error and the error's message in its only
    reason, available is true, supported stays false and no adapter or
    device is recorded; the optimizer then answers with its CPU fallback. *)
Theorem adapter_request_throws
    (env : Environment) (g : GPU) (message : string) :
  window_isSecureContext env = true ->
  navigator_gpu env = Some g ->
  gpu_requestAdapter g = JS.Throws message ->
  errors (runFullCheck env) = ["ADAPTER_ERROR"] /\
  reasons (runFullCheck env) = ["Failed to get GPU adapter: " +:+ message] /\
  available (runFullCheck env) = true /\
  supported (runFullCheck env) = false /\
  adapter (runFullCheck env) = None /\
  device (runFullCheck env) = None /\
  GpuUtils.getOptimizedGPUParameters env = fallback_parameters.
Proof.
  intros Hsecure Hg Ha. unfold GpuUtils.getOptimizedGPUParameters.
  rewrite (runFullCheck_closed_form env Hsecure).
  unfold probe_record. rewrite Hg, Ha. repeat split; reflexivity.
Qed.

Lemma adapter_request_throws_witness :
  errors (runFullCheck
            {| window_isSecureContext := true;
               navigator_userAgent := sample_userAgent;
               navigator_gpu :=
                 Some {| gpu_requestAdapter := JS.Throws "GPU process crashed" |} |})
  = ["ADAPTER_ERROR"].
Proof.
  apply (adapter_request_throws _
           {| gpu_requestAdapter := JS.Throws "GPU process crashed" |}
           "GPU process crashed"); reflexivity.
Defined.

(** X4: when an adapter is acquired in a secure context but no device is
    (the request resolves to nothing or throws), supported stays true with
    no device, no features and no limits; the tier is 'unknown', the status
    message is the 'has limitations' one, and the optimizer still answers
    useGPU = true, with tier 'unknown' and the default 256 and 64. *)
Theorem device_request_fails (env : Environment) (a : GPUAdapter) :
  window_isSecureContext env = true ->
  acquired_adapter env = Some a ->
  acquired_device env = None ->
  supported (runFullCheck env) = true /\
  device (runFullCheck env) = None /\
  features (runFullCheck env) = [] /\
  limits (runFullCheck env) = ∅ /\
  (errors (runFullCheck env) = ["DEVICE_CREATION_FAILED"] \/
   errors (runFullCheck env) = ["DEVICE_ERROR"]) /\
  getPerformanceTier (runFullCheck env) = unknown /\
  getStatusMessage (runFullCheck env)
  = "WebGPU is available but has limitations" /\
  GpuUtils.useGPU (GpuUtils.getOptimizedGPUParameters env) = true /\
  GpuUtils.performanceTier (GpuUtils.getOptimizedGPUParameters env)
  = Some unknown /\
  GpuUtils.optimizedNB_ITER (GpuUtils.getOptimizedGPUParameters env) = 256%N /\
  GpuUtils.optimizedNB_THREAD (GpuUtils.getOptimizedGPUParameters env) = 64%N.
Proof.
  intros Hsecure Ha Hd.
  assert (Hrecord :
    supported (runFullCheck env) = true /\
    available (runFullCheck env) = true /\
    device (runFullCheck env) = None /\
    features (runFullCheck env) = [] /\
    limits (runFullCheck env) = ∅ /\
    (errors (runFullCheck env) = ["DEVICE_CREATION_FAILED"] \/
     errors (runFullCheck env) = ["DEVICE_ERROR"])).
  { rewrite (runFullCheck_closed_form env Hsecure).
    revert Ha Hd. probe_cases env; intros Ha Hd; try discriminate;
      repeat split; auto. }
  destruct Hrecord as (Hs & Hav & Hde & Hfe & Hli & Her).
  destruct (no_limits_parameters _ Hs Hli) as [Ht Hp].
  unfold GpuUtils.getOptimizedGPUParameters. rewrite Hp.
  repeat split; try assumption; try reflexivity.
  unfold getStatusMessage. rewrite Hs, Hde, Hav. reflexivity.
Qed.

Lemma device_request_fails_witness :
  GpuUtils.useGPU
    (GpuUtils.getOptimizedGPUParameters
       {| window_isSecureContext := true;
          navigator_userAgent := sample_userAgent;
          navigator_gpu :=
            Some {| gpu_requestAdapter :=
                      JS.Returns
                        (Some {| adapter_info := None;
                                 adapter_requestDevice := JS.Returns None |}) |} |})
  = true.
Proof.
  apply (device_request_fails _
           {| adapter_info := None; adapter_requestDevice := JS.Returns None |});
    reflexivity.
Defined.

(** X5: when a device is acquired in a secure context it is recorded,
    whether or not its capabilities can be read afterwards.  The record's
    features are the device's features if they can be read and none
    otherwise.  Its limits are, if both the features and the limits can be
    read, the device's limits restricted to the nine names the checker
    copies (a copied name has the device's value, or is absent if the
    device does not report it, and no other name is present), and none
    otherwise.  DEVICE_ERROR is recorded exactly when one of the two reads
    fails. *)
Theorem device_capabilities_copied (env : Environment) (d : GPUDevice) :
  window_isSecureContext env = true ->
  acquired_device env = Some d ->
  device (runFullCheck env) = Some d /\
  features (runFullCheck env)
  = match device_features d with
    | JS.Returns f => f
    | JS.Throws _ => []
    end /\
  (forall name : string,
     limits (runFullCheck env) !! name
     = match device_features d, device_limits d with
       | JS.Returns _, JS.Returns l =>
           if decide (name ∈ limit_names) then l !! name else None
       | _, _ => None
       end) /\
  ("DEVICE_ERROR" ∈ errors (runFullCheck env) <->
   ~ (exists f l, device_features d = JS.Returns f /\
                  device_limits d = JS.Returns l)).
Proof.
  intros Hsecure Hd.
  rewrite (runFullCheck_closed_form env Hsecure).
  revert Hd. probe_cases env; intros Hd; try discriminate.
  injection Hd as <-.
  match goal with d' : GPUDevice |- _ => device_cases d' end;
    (split; [reflexivity|]); (split; [reflexivity|]);
    (split;
     [ intros name; first [apply copy_from_lookup | apply lookup_empty]
     | split;
       [ intros Hin; first
           [ intros (f' & l' & Hf & Hl); congruence
           | exfalso;
             repeat (apply elem_of_cons in Hin as [Hin|Hin];
                     [discriminate Hin|]);
             inversion Hin ]
       | intros Hn; first
           [ apply list_elem_of_here
           | exfalso; apply Hn; eauto ] ] ]).
Qed.

Lemma device_capabilities_copied_witness :
  limits (runFullCheck sample_env) !! "maxTextureDimension2D"
  = (if decide ("maxTextureDimension2D" ∈ limit_names)
     then sample_limits !! "maxTextureDimension2D"
     else None).
Proof.
  destruct (device_capabilities_copied sample_env sample_device
              eq_refl eq_refl) as (_ & _ & H & _).
  exact (H "maxTextureDimension2D").
Defined.

(** X6: in a secure context, once an adapter is acquired the performance
    info holds exactly four entries: under vendor, architecture, device
    and description the adapter's own value for that field, 'Unknown'
    standing for an unreported or empty one (so that each entry is a
    non-empty string); every other key, browser included, is absent, the
    entry written by the compatibility check having been replaced.
    Without an adapter the browser entry is the only content. *)
Theorem performanceInfo_of_probe (env : Environment) :
  window_isSecureContext env = true ->
  match acquired_adapter env with
  | Some a =>
      performanceInfo (runFullCheck env) !! "vendor"
      = Some (JS.or_elseS (adapter_info a ≫= info_vendor) "Unknown") /\
      performanceInfo (runFullCheck env) !! "architecture"
      = Some (JS.or_elseS (adapter_info a ≫= info_architecture) "Unknown") /\
      performanceInfo (runFullCheck env) !! "device"
      = Some (JS.or_elseS (adapter_info a ≫= info_device) "Unknown") /\
      performanceInfo (runFullCheck env) !! "description"
      = Some (JS.or_elseS (adapter_info a ≫= info_description) "Unknown") /\
      (forall k, k ∈ ["vendor"; "architecture"; "device"; "description"] ->
         exists v, performanceInfo (runFullCheck env) !! k = Some v /\ v <> "") /\
      (forall k, k ∉ ["vendor"; "architecture"; "device"; "description"] ->
         performanceInfo (runFullCheck env) !! k = None)
  | None =>
      performanceInfo (runFullCheck env)
      = {[ "browser" := browser_info (navigator_userAgent env) ]}
  end.
Proof.
  intros Hsecure. rewrite (runFullCheck_closed_form env Hsecure).
  probe_cases env; first [apply adapter_report_lookup | apply insert_empty].
Qed.

Lemma performanceInfo_of_probe_witness :
  performanceInfo (runFullCheck sample_env) !! "vendor" = Some "nvidia" /\
  performanceInfo (runFullCheck sample_env) !! "architecture" = Some "Unknown" /\
  performanceInfo (runFullCheck sample_env) !! "device" = Some "Unknown" /\
  performanceInfo (runFullCheck sample_env) !! "browser" = None.
Proof.
  destruct (performanceInfo_of_probe sample_env eq_refl)
    as (Hv & Ha & Hd & _ & _ & Hnone).
  refine (conj Hv (conj Ha (conj Hd (Hnone "browser" _)))).
  intros H. repeat (apply elem_of_cons in H as [H|H]; [discriminate H|]).
  inversion H.
Defined.

(** X7: the status message after a probe is the 'fully supported' one
    exactly when the context is secure and a device was acquired, the 'has
    limitations' one when the context is secure and [navigator.gpu] exists
    but no device was acquired, and the 'not supported' one otherwise. *)
Theorem getStatusMessage_of_probe (env : Environment) :
  getStatusMessage (runFullCheck env)
  = if window_isSecureContext env then
      match acquired_device env, navigator_gpu env with
      | Some _, _ =>
          "WebGPU is fully supported and available for GPU acceleration"
      | None, Some _ => "WebGPU is available but has limitations"
      | None, None => "WebGPU is not supported in this browser or environment"
      end
    else "WebGPU is not supported in this browser or environment".
Proof.
  destruct (window_isSecureContext env) eqn:Hsecure.
  - rewrite (runFullCheck_closed_form env Hsecure).
    unfold getStatusMessage. probe_cases env; reflexivity.
  - rewrite (insecure_short_circuit env Hsecure). reflexivity.
Qed.

End ProbeResults.

(** ** The optimizer and the estimate on every input *)

Section OptimizerRange.

Import GpuUtils.

Lemma tier_unavailable_iff (c : Capabilities) :
  getPerformanceTier c = unavailable <-> supported c = false.
Proof.
  unfold getPerformanceTier. destruct (supported c); cbn [negb].
  - repeat match goal with
      | |- context [if ?b then _ else _] => destruct b
      end; split; discriminate.
  - split; reflexivity.
Qed.

Lemma tier_high_sizeX (c : Capabilities) :
  supported c = true -> getPerformanceTier c = high ->
  exists x, Checker.limits c !! SIZE_X = Some x /\ (1024 <= x)%N.
Proof.
  intros Hs. unfold getPerformanceTier. rewrite Hs. cbn [negb].
  destruct (negb (JS.truthy _)); [intros H; discriminate H|].
  destruct (JS.ge (Checker.limits c !! INVOCATIONS) 1024
            && JS.ge (Checker.limits c !! SIZE_X) 1024
            && JS.ge (Checker.limits c !! STORAGE_BINDING) 134217728) eqn:E.
  - intros _. apply andb_true_iff in E as [E _].
    apply andb_true_iff in E as [_ E]. now apply ge_Some.
  - destruct (JS.ge (Checker.limits c !! INVOCATIONS) 512
              && JS.ge (Checker.limits c !! SIZE_X) 512
              && JS.ge (Checker.limits c !! STORAGE_BINDING) 67108864);
      intros H; discriminate H.
Qed.

Lemma tier_medium_sizeX (c : Capabilities) :
  supported c = true -> getPerformanceTier c = medium ->
  exists x, Checker.limits c !! SIZE_X = Some x /\ (512 <= x)%N.
Proof.
  intros Hs. unfold getPerformanceTier. rewrite Hs. cbn [negb].
  destruct (negb (JS.truthy _)); [intros H; discriminate H|].
  destruct (JS.ge (Checker.limits c !! INVOCATIONS) 1024
            && JS.ge (Checker.limits c !! SIZE_X) 1024
            && JS.ge (Checker.limits c !! STORAGE_BINDING) 134217728);
    [intros H; discriminate H|].
  destruct (JS.ge (Checker.limits c !! INVOCATIONS) 512
            && JS.ge (Checker.limits c !! SIZE_X) 512
            && JS.ge (Checker.limits c !! STORAGE_BINDING) 67108864) eqn:E;
    [|intros H; discriminate H].
  intros _. apply andb_true_iff in E as [E _].
  apply andb_true_iff in E as [_ E]. now apply ge_Some.
Qed.

Lemma parametersOf_facts (c : Capabilities) :
  useGPU (parametersOf c) = supported c /\
  performanceTier (parametersOf c)
  = (if supported c then Some (getPerformanceTier c) else None) /\
  reason (parametersOf c)
  = (if supported c then None else Some "WebGPU not supported") /\
  (1 <= optimizedNB_ITER (parametersOf c) <= 512)%N /\
  (1 <= optimizedNB_THREAD (parametersOf c) <= 256)%N.
Proof.
  unfold parametersOf. destruct (supported c); cbn [negb].
  - destruct (getPerformanceTier c);
      cbn [useGPU performanceTier reason optimizedNB_ITER optimizedNB_THREAD];
      rewrite ?min_or_else_capped;
      repeat split; try reflexivity;
      try match goal with
        | |- context [capped ?cap ?x] =>
            pose proof (capped_bounds cap x ltac:(lia))
        end; lia.
  - cbn. repeat split; lia.
Qed.

(** X8: for every capability record, useGPU is the record's supported
    flag, the result carries the classifier's tier exactly when supported
    is true, the iteration count lies between 1 and 512 and the thread
    count between 1 and 256. *)
Theorem parameters_in_range (c : Capabilities) :
  useGPU (parametersOf c) = supported c /\
  performanceTier (parametersOf c)
  = (if supported c then Some (getPerformanceTier c) else None) /\
  (1 <= optimizedNB_ITER (parametersOf c) <= 512)%N /\
  (1 <= optimizedNB_THREAD (parametersOf c) <= 256)%N.
Proof.
  destruct (parametersOf_facts c) as (Hu & Ht & _ & Hi & Hth). auto.
Qed.

(** X9: at tier 'high' the thread count is always 256 and at tier 'medium'
    always 128: the size-X limit such a record must have is above the cap,
    so only at tier 'low' can the limit lower the thread count. *)
Theorem thread_count_at_cap (c : Capabilities) :
  supported c = true ->
  (getPerformanceTier c = high -> optimizedNB_THREAD (parametersOf c) = 256%N) /\
  (getPerformanceTier c = medium -> optimizedNB_THREAD (parametersOf c) = 128%N).
Proof.
  intros Hs. split; intros Ht.
  - destruct (tier_high_sizeX c Hs Ht) as (x & Hx & Hle).
    unfold parametersOf. rewrite Hs, Ht. cbn [negb optimizedNB_THREAD].
    rewrite Hx. unfold JS.Math_min, JS.or_else.
    destruct (N.eqb_spec x 0); lia.
  - destruct (tier_medium_sizeX c Hs Ht) as (x & Hx & Hle).
    unfold parametersOf. rewrite Hs, Ht. cbn [negb optimizedNB_THREAD].
    rewrite Hx. unfold JS.Math_min, JS.or_else.
    destruct (N.eqb_spec x 0); lia.
Qed.

Lemma thread_count_at_cap_witness :
  optimizedNB_THREAD (parametersOf zero_workgroups) = 256%N.
Proof.
  apply (thread_count_at_cap zero_workgroups); reflexivity.
Defined.

Lemma estimate_as_max (t : PerformanceTier) (n : Q) :
  (estimatePerformanceGain t n
   == Qmax 1 match t with
             | high => 20 + 2 * n
             | medium => 10 + n
             | low => 4 + (1 # 2) * n
             | unknown | unavailable => 0
             end)%Q.
Proof.
  unfold estimatePerformanceGain.
  destruct t; try reflexivity; apply Math_max_1_proper; simpl gains;
    rewrite or_elseQ_Some; ring.
Qed.

(** X10: the estimate is at least 1 for every tier and every thread count,
    and it never decreases when the thread count grows. *)
Theorem estimatePerformanceGain_monotone (t : PerformanceTier) (n m : Q) :
  (n <= m)%Q ->
  (1 <= estimatePerformanceGain t n)%Q /\
  (estimatePerformanceGain t n <= estimatePerformanceGain t m)%Q.
Proof.
  intros Hnm. rewrite !estimate_as_max. split.
  - apply Q.le_max_l.
  - apply Q.max_le_compat_l. destruct t; lra.
Qed.

Lemma estimatePerformanceGain_monotone_witness :
  (estimatePerformanceGain low 1 <= estimatePerformanceGain low 8)%Q.
Proof.
  apply (estimatePerformanceGain_monotone low 1 8). vm_compute. discriminate.
Defined.

(** X11: for a thread count that is not negative the floor of 1 does not
    act on the three GPU tiers: the estimate is exactly 20 + 2n, 10 + n and
    4 + n/2, and the tiers are strictly ordered, unavailable (1) below low
    below medium below high. *)
Theorem estimatePerformanceGain_ordered (n : Q) :
  (0 <= n)%Q ->
  (estimatePerformanceGain high n == 20 + 2 * n)%Q /\
  (estimatePerformanceGain medium n == 10 + n)%Q /\
  (estimatePerformanceGain low n == 4 + (1 # 2) * n)%Q /\
  (estimatePerformanceGain unavailable n < estimatePerformanceGain low n)%Q /\
  (estimatePerformanceGain low n < estimatePerformanceGain medium n)%Q /\
  (estimatePerformanceGain medium n < estimatePerformanceGain high n)%Q.
Proof.
  intros Hn.
  assert (Hh : (estimatePerformanceGain high n == 20 + 2 * n)%Q).
  { rewrite estimate_as_max. apply Q.max_r. lra. }
  assert (Hm : (estimatePerformanceGain medium n == 10 + n)%Q).
  { rewrite estimate_as_max. apply Q.max_r. lra. }
  assert (Hl : (estimatePerformanceGain low n == 4 + (1 # 2) * n)%Q).
  { rewrite estimate_as_max. apply Q.max_r. lra. }
  assert (Hu : (estimatePerformanceGain unavailable n == 1)%Q) by reflexivity.
  rewrite Hh, Hm, Hl, Hu. repeat split; try reflexivity; lra.
Qed.

Lemma estimatePerformanceGain_ordered_witness :
  (estimatePerformanceGain low 0 < estimatePerformanceGain medium 0)%Q.
Proof.
  apply (estimatePerformanceGain_ordered 0). vm_compute. discriminate.
Defined.

End OptimizerRange.

(** ** The functions that wrap a probe *)

Section Decisions.

Lemma or_elseS_Some (x d : string) : x <> "" -> JS.or_elseS (Some x) d = x.
Proof. intros Hx. now destruct x. Qed.

(** The reasons of a probe's record: one, or two when the device check
    failed after the device was stored; none of them is empty, and a
    record that is not supported has one only. *)
Lemma probe_reasons (env : Environment) :
  (exists r, reasons (runFullCheck env) = [r] /\ r <> "") \/
  (exists r r', reasons (runFullCheck env) = [r; r'] /\ r <> "" /\ r' <> "" /\
                supported (runFullCheck env) = true).
Proof.
  destruct (window_isSecureContext env) eqn:Hsecure.
  - rewrite (runFullCheck_closed_form env Hsecure).
    probe_cases env;
      [match goal with d : GPUDevice |- _ => device_cases d end|..];
      first
        [ left; eexists; split; [reflexivity|]; simpl; discriminate
        | right; do 2 eexists; split; [reflexivity|];
          repeat split; simpl; discriminate ].
  - rewrite (insecure_short_circuit env Hsecure).
    left; eexists; (split; [reflexivity|]); discriminate.
Qed.

Lemma probe_reason (env : Environment) :
  supported (runFullCheck env) = false ->
  exists r, reasons (runFullCheck env) = [r] /\ r <> "".
Proof.
  intros Hs. destruct (probe_reasons env) as [H|(r & r' & _ & _ & _ & H)];
    [exact H | congruence].
Qed.

Lemma probe_supported (env : Environment) :
  (supported (runFullCheck env) = true <->
   window_isSecureContext env = true /\ is_Some (acquired_adapter env)) /\
  (supported (runFullCheck env) = true -> available (runFullCheck env) = true).
Proof.
  destruct (window_isSecureContext env) eqn:Hsecure.
  - destruct (secure_probe_outcome env Hsecure) as (Hav & Hsu & Had & _).
    split; [rewrite Hsu; tauto|].
    rewrite Hsu, Hav. unfold acquired_adapter.
    destruct (navigator_gpu env); [eauto|]. intros [x Hx]. discriminate Hx.
  - rewrite (insecure_short_circuit env Hsecure). cbn.
    split; [split; [|intros [H _]]|]; discriminate.
Qed.

(** X12: the report of [checkWebGPUAvailability] has tier 'unavailable'
    exactly when its supported flag is false; the flag is true exactly
    when the context is secure and an adapter was acquired, and then
    available is true as well; the report carries one or two reasons,
    none of them empty, and one only when the flag is false. *)
Theorem checkWebGPUAvailability_report (env : Environment) :
  (GpuDecision.performanceTier (GpuDecision.checkWebGPUAvailability env)
   = unavailable <->
   GpuDecision.supported (GpuDecision.checkWebGPUAvailability env) = false) /\
  (GpuDecision.supported (GpuDecision.checkWebGPUAvailability env) = true <->
   window_isSecureContext env = true /\ is_Some (acquired_adapter env)) /\
  (GpuDecision.supported (GpuDecision.checkWebGPUAvailability env) = true ->
   GpuDecision.available (GpuDecision.checkWebGPUAvailability env) = true) /\
  (1 <= length (GpuDecision.reasons (GpuDecision.checkWebGPUAvailability env))
   <= 2)%nat /\
  (forall r, r ∈ GpuDecision.reasons (GpuDecision.checkWebGPUAvailability env) ->
             r <> "") /\
  (GpuDecision.supported (GpuDecision.checkWebGPUAvailability env) = false ->
   length (GpuDecision.reasons (GpuDecision.checkWebGPUAvailability env))
   = 1%nat).
Proof.
  unfold GpuDecision.checkWebGPUAvailability.
  cbn [GpuDecision.performanceTier GpuDecision.supported
       GpuDecision.available GpuDecision.reasons].
  destruct (probe_supported env) as [Hsu Hav].
  split; [apply tier_unavailable_iff|]. split; [exact Hsu|].
  split; [exact Hav|].
  destruct (probe_reasons env)
    as [(r & Hr & Hne)|(r & r' & Hr & Hne & Hne' & Hs)]; rewrite Hr.
  - split; [cbn [length]; lia|]. split; [|reflexivity].
    intros x Hx. apply list_elem_of_singleton in Hx. now subst x.
  - split; [cbn [length]; lia|]. split; [|congruence].
    intros x Hx. apply elem_of_cons in Hx as [->|Hx]; [exact Hne|].
    apply list_elem_of_singleton in Hx. now subst x.
Qed.

Lemma checkWebGPUAvailability_report_witness :
  length (GpuDecision.reasons (GpuDecision.checkWebGPUAvailability no_gpu_env))
  = 1%nat.
Proof.
  destruct (checkWebGPUAvailability_report no_gpu_env)
    as (_ & _ & _ & _ & _ & H).
  exact (H eq_refl).
Defined.

(** X13: [shouldUseGPU] answers useGPU = true exactly when the GPU is
    preferred and both of its probes find an adapter; the answer then has
    the reason 'GPU acceleration available' and carries the parameters and
    the tier computed from the second probe. *)
Theorem shouldUseGPU_accepts (preferGPU : bool) (env env' : Environment) :
  (GpuDecision.useGPU (GpuDecision.shouldUseGPU preferGPU env env') = true <->
   preferGPU = true /\
   supported (runFullCheck env) = true /\
   supported (runFullCheck env') = true) /\
  (GpuDecision.useGPU (GpuDecision.shouldUseGPU preferGPU env env') = true ->
   GpuDecision.reason (GpuDecision.shouldUseGPU preferGPU env env')
   = "GPU acceleration available" /\
   GpuDecision.decidedTier (GpuDecision.shouldUseGPU preferGPU env env')
   = Some (getPerformanceTier (runFullCheck env')) /\
   GpuDecision.parameters (GpuDecision.shouldUseGPU preferGPU env env')
   = Some (GpuUtils.getOptimizedGPUParameters env')).
Proof.
  unfold GpuDecision.shouldUseGPU, GpuDecision.checkWebGPUAvailability.
  cbn [GpuDecision.supported].
  destruct preferGPU; cbn [negb];
    [|split; [split; [|intros [H _]]|]; discriminate].
  destruct (supported (runFullCheck env)); cbn [negb];
    [|split; [split; [|intros (_ & H & _)]|]; discriminate].
  unfold GpuUtils.getOptimizedGPUParameters.
  destruct (parametersOf_facts (runFullCheck env')) as (Hu & Ht & Hr & _).
  cbn [GpuDecision.useGPU GpuDecision.reason GpuDecision.decidedTier
       GpuDecision.parameters].
  rewrite Hu, Ht, Hr.
  destruct (supported (runFullCheck env')).
  - repeat split; reflexivity.
  - split; [split; [|intros (_ & _ & H)]|]; discriminate.
Qed.

Lemma shouldUseGPU_accepts_witness :
  GpuDecision.useGPU (GpuDecision.shouldUseGPU true sample_env sample_env) = true.
Proof.
  apply (shouldUseGPU_accepts true sample_env sample_env).
  repeat split; reflexivity.
Defined.

(** X14: when the GPU is preferred and the first probe finds no adapter,
    [shouldUseGPU] declines without a second probe and gives as its reason
    the one diagnostic of that probe, never the fallback text; when the
    first probe finds an adapter and the second does not, it declines with
    the reason 'WebGPU not supported' and the optimizer's CPU fallback as
    parameters. *)
Theorem shouldUseGPU_declines (env env' : Environment) :
  (supported (runFullCheck env) = false ->
   GpuDecision.useGPU (GpuDecision.shouldUseGPU true env env') = false /\
   reasons (runFullCheck env)
   = [GpuDecision.reason (GpuDecision.shouldUseGPU true env env')] /\
   GpuDecision.decidedTier (GpuDecision.shouldUseGPU true env env') = None /\
   GpuDecision.parameters (GpuDecision.shouldUseGPU true env env') = None) /\
  (supported (runFullCheck env) = true ->
   supported (runFullCheck env') = false ->
   GpuDecision.shouldUseGPU true env env'
   = {| GpuDecision.useGPU := false;
        GpuDecision.reason := "WebGPU not supported";
        GpuDecision.decidedTier := None;
        GpuDecision.parameters := Some fallback_parameters |}).
Proof.
  unfold GpuDecision.shouldUseGPU, GpuDecision.checkWebGPUAvailability.
  cbn [GpuDecision.supported GpuDecision.reasons negb].
  split.
  - intros Hs. rewrite Hs. cbn [negb].
    destruct (probe_reason env Hs) as (r & Hr & Hne).
    cbn [GpuDecision.useGPU GpuDecision.reason GpuDecision.decidedTier
         GpuDecision.parameters].
    rewrite Hr. cbn [JS.join]. rewrite (or_elseS_Some r _ Hne).
    repeat split; reflexivity.
  - intros Hs Hs'. rewrite Hs. cbn [negb].
    unfold GpuUtils.getOptimizedGPUParameters.
    rewrite (parametersOf_unsupported _ Hs'). reflexivity.
Qed.

Lemma shouldUseGPU_declines_witness :
  reasons (runFullCheck no_gpu_env)
  = [GpuDecision.reason (GpuDecision.shouldUseGPU true no_gpu_env sample_env)].
Proof.
  apply (shouldUseGPU_declines no_gpu_env sample_env). reflexivity.
Defined.

End Decisions.

(** ** The status panel *)

Section Panel.

(** X15: the features the panel displays are always a prefix of the
    record's features: all of them when 'show all' is on, the first
    [min(n, 10)] otherwise; when more than ten exist and 'show all' is off,
    the ten displayed and the count on the 'Show ... More' button add up to
    the total. *)
Theorem displayedFeatures_prefix (showAllFeatures : bool) (features : list string) :
  (exists rest,
     features = StatusPanel.displayedFeatures showAllFeatures features ++ rest)%list /\
  StatusPanel.displayedFeatures true features = features /\
  length (StatusPanel.displayedFeatures false features)
  = Nat.min (length features) 10 /\
  ((10 < length features)%nat ->
   (length (StatusPanel.displayedFeatures false features)
    + StatusPanel.hiddenFeatures features)%nat = length features).
Proof.
  unfold StatusPanel.displayedFeatures, StatusPanel.hiddenFeatures.
  cbn [orb].
  destruct (Nat.leb_spec (length features) 10) as [Hle|Hgt].
  - split; [exists []; destruct showAllFeatures; cbn [orb];
            now rewrite app_nil_r|].
    split; [reflexivity|]. split; lia.
  - split.
    + destruct showAllFeatures; cbn [orb].
      * exists []. now rewrite app_nil_r.
      * exists (drop 10 features). now rewrite take_drop.
    + split; [reflexivity|]. rewrite length_take. split; lia.
Qed.

Lemma displayedFeatures_prefix_witness :
  (length (StatusPanel.displayedFeatures false
             ["a"; "b"; "c"; "d"; "e"; "f"; "g"; "h"; "i"; "j"; "k"; "l"])
   + StatusPanel.hiddenFeatures
       ["a"; "b"; "c"; "d"; "e"; "f"; "g"; "h"; "i"; "j"; "k"; "l"])%nat
  = 12%nat.
Proof.
  apply (displayedFeatures_prefix false
           ["a"; "b"; "c"; "d"; "e"; "f"; "g"; "h"; "i"; "j"; "k"; "l"]).
  cbn. lia.
Defined.

(** X16: on the record of a probe the panel's title is 'WebGPU Available'
    exactly when an adapter was acquired in a secure context, whether or
    not a device followed; so the title 'WebGPU Available', with the class
    'status-success', stands beside the message 'WebGPU is available but
    has limitations' exactly when the adapter was acquired and the device
    was not. *)
Theorem panel_title_and_message (env : Environment) :
  (StatusPanel.statusTitle (runFullCheck env) = "WebGPU Available" <->
   window_isSecureContext env = true /\ is_Some (acquired_adapter env)) /\
  (StatusPanel.statusClass (runFullCheck env) = "status-success" <->
   StatusPanel.statusTitle (runFullCheck env) = "WebGPU Available") /\
  (StatusPanel.statusTitle (runFullCheck env) = "WebGPU Available" /\
   getStatusMessage (runFullCheck env)
   = "WebGPU is available but has limitations" <->
   window_isSecureContext env = true /\
   is_Some (acquired_adapter env) /\ acquired_device env = None).
Proof.
  unfold StatusPanel.statusTitle, StatusPanel.statusClass, getStatusMessage.
  destruct (window_isSecureContext env) eqn:Hsecure.
  - rewrite (runFullCheck_closed_form env Hsecure).
    probe_cases env; cbn [andb];
      (split; [|split]); split;
      try (intros H; discriminate H);
      try (intros [H _]; discriminate H);
      try (intros [_ H]; discriminate H);
      try (intros [_ [x Hx]]; discriminate Hx);
      try (intros (_ & [x Hx] & _); discriminate Hx);
      try (intros (_ & _ & H); discriminate H);
      intros; repeat split; eauto.
  - rewrite (insecure_short_circuit env Hsecure). cbn.
    (split; [|split]); split;
      try (intros H; discriminate H);
      try (intros [H _]; discriminate H).
Qed.

Lemma panel_title_and_message_witness :
  StatusPanel.statusTitle (runFullCheck sample_env) = "WebGPU Available".
Proof.
  destruct (panel_title_and_message sample_env) as [[_ Htitle] _].
  apply Htitle. split; [reflexivity|]. exists sample_adapter. reflexivity.
Defined.

End Panel.

(** ** The page component *)

Section Page.

Lemma Qfloor_unique (x : Q) (z : Z) :
  (inject_Z z <= x)%Q -> (x < inject_Z (z + 1))%Q -> Qfloor x = z.
Proof.
  intros Hle Hlt.
  pose proof (Qfloor_le x) as Hfl. pose proof (Qlt_floor x) as Hfu.
  assert (H1 : (Qfloor x < z + 1)%Z).
  { rewrite Zlt_Qlt. eapply Qle_lt_trans; eassumption. }
  assert (H2 : (z < Qfloor x + 1)%Z).
  { rewrite Zlt_Qlt. eapply Qle_lt_trans; eassumption. }
  lia.
Qed.

Lemma Math_round_near (q : Q) (z : Z) :
  (inject_Z z - (1 # 2) <= q)%Q -> (q < inject_Z z + (1 # 2))%Q ->
  JS.Math_round q = z.
Proof.
  intros Hle Hlt. unfold JS.Math_round. apply Qfloor_unique.
  - lra.
  - rewrite inject_Z_plus. change (inject_Z 1) with 1%Q. lra.
Qed.

Lemma estimateFor_as_max (tier : option PerformanceTier) (n : Q) :
  (App.estimateFor tier n
   == Qmax 1 match tier with
             | Some high => 20 + 2 * n
             | Some medium => 10 + n
             | Some low => 4 + (1 # 2) * n
             | Some unknown | Some unavailable | None => 0
             end)%Q.
Proof.
  destruct tier as [t|]; [|reflexivity].
  unfold App.estimateFor. rewrite estimate_as_max. now destruct t.
Qed.

(** X17: after [checkWebGPUCapabilities], useGPU is the supported flag of
    the optimizer's probe, the rounded estimate is at least 1 whatever the
    thread count, and the counts are within 1..512 and 1..256; when that
    probe finds no adapter the result is useGPU = false, tier
    'unavailable', estimate 1, counts 256 and 64, so the estimate 0 of the
    component's initial data is never restored. *)
Theorem checkWebGPUCapabilities_result
    (threads : Z) (env env' : Environment) :
  (App.checkWebGPUCapabilities threads env env').1 = runFullCheck env /\
  App.useGPU (App.checkWebGPUCapabilities threads env env').2
  = supported (runFullCheck env') /\
  (1 <= App.estimatedGain (App.checkWebGPUCapabilities threads env env').2)%Z /\
  (1 <= App.optimizedNB_ITER (App.checkWebGPUCapabilities threads env env').2
   <= 512)%N /\
  (1 <= App.optimizedNB_THREAD (App.checkWebGPUCapabilities threads env env').2
   <= 256)%N /\
  (supported (runFullCheck env') = false ->
   (App.checkWebGPUCapabilities threads env env').2
   = {| App.useGPU := false;
        App.performanceTier := unavailable;
        App.estimatedGain := 1;
        App.optimizedNB_ITER := 256;
        App.optimizedNB_THREAD := 64 |}).
Proof.
  unfold App.checkWebGPUCapabilities, GpuUtils.getOptimizedGPUParameters.
  cbn [fst snd App.useGPU App.estimatedGain App.optimizedNB_ITER
       App.optimizedNB_THREAD].
  destruct (parametersOf_facts (runFullCheck env'))
    as (Hu & Ht & _ & Hi & Hth).
  split; [reflexivity|]. split; [exact Hu|]. split; [|split; [exact Hi|]].
  - unfold JS.Math_round.
    change 1%Z with (Qfloor (1 + (1 # 2))).
    apply Qfloor_resp_le. rewrite estimateFor_as_max.
    apply Qplus_le_l, Q.le_max_l.
  - split; [exact Hth|]. intros Hs.
    rewrite (parametersOf_unsupported _ Hs). reflexivity.
Qed.

Lemma checkWebGPUCapabilities_result_witness :
  (App.checkWebGPUCapabilities 8 sample_env no_gpu_env).2
  = {| App.useGPU := false;
       App.performanceTier := unavailable;
       App.estimatedGain := 1;
       App.optimizedNB_ITER := 256;
       App.optimizedNB_THREAD := 64 |}.
Proof.
  apply (checkWebGPUCapabilities_result 8 sample_env no_gpu_env). reflexivity.
Defined.

(** X18: for a thread count [n >= 0] the estimate the page stores is
    20 + 2n at tier 'high', 10 + n at 'medium', 4 + ceil(n / 2) at 'low'
    (a half is rounded up), and 1 at 'unknown' and 'unavailable'. *)
Theorem checkWebGPUCapabilities_estimate
    (threads : Z) (env env' : Environment) :
  (0 <= threads)%Z ->
  App.estimatedGain (App.checkWebGPUCapabilities threads env env').2
  = match App.performanceTier (App.checkWebGPUCapabilities threads env env').2
    with
    | high => 20 + 2 * threads
    | medium => 10 + threads
    | low => 4 + (threads + 1) / 2
    | unknown | unavailable => 1
    end%Z.
Proof.
  intros Hn. unfold App.checkWebGPUCapabilities.
  cbn [snd App.estimatedGain App.performanceTier].
  set (tier := GpuUtils.performanceTier (GpuUtils.getOptimizedGPUParameters env')).
  assert (Hq : (0 <= inject_Z threads)%Q).
  { change 0%Q with (inject_Z 0). now rewrite <- Zle_Qle. }
  pose proof (estimateFor_as_max tier (inject_Z threads)) as He.
  assert (Hround : forall z : Z,
            (inject_Z z - (1 # 2) <= App.estimateFor tier (inject_Z threads))%Q ->
            (App.estimateFor tier (inject_Z threads) < inject_Z z + (1 # 2))%Q ->
            JS.Math_round (App.estimateFor tier (inject_Z threads)) = z)
    by (intros z; apply Math_round_near).
  destruct tier as [[]|]; apply Hround; rewrite He;
    try (rewrite Q.max_r by lra);
    try (rewrite Q.max_l by lra);
    rewrite ?inject_Z_plus, ?inject_Z_mult;
    change (inject_Z 20) with 20%Q; change (inject_Z 10) with 10%Q;
    change (inject_Z 4) with 4%Q; change (inject_Z 2) with 2%Q;
    change (inject_Z 1) with 1%Q; try lra.
  - pose proof (Z.div_mod (threads + 1) 2 ltac:(lia)) as Hdm.
    pose proof (Z.mod_pos_bound (threads + 1) 2 ltac:(lia)) as Hmod.
    assert (H1 : (2 * ((threads + 1) / 2) <= threads + 1)%Z) by lia.
    rewrite Zle_Qle in H1.
    rewrite ?inject_Z_mult, ?inject_Z_plus in H1.
    change (inject_Z 2) with 2%Q in H1. change (inject_Z 1) with 1%Q in H1.
    lra.
  - pose proof (Z.div_mod (threads + 1) 2 ltac:(lia)) as Hdm.
    pose proof (Z.mod_pos_bound (threads + 1) 2 ltac:(lia)) as Hmod.
    assert (H2 : (threads + 1 < 2 * ((threads + 1) / 2) + 2)%Z) by lia.
    rewrite Zlt_Qlt in H2.
    rewrite ?inject_Z_plus, ?inject_Z_mult, ?inject_Z_plus in H2.
    change (inject_Z 2) with 2%Q in H2. change (inject_Z 1) with 1%Q in H2.
    lra.
Qed.

Lemma checkWebGPUCapabilities_estimate_witness :
  App.estimatedGain (App.checkWebGPUCapabilities 8 sample_env sample_env).2
  = 36%Z.
Proof.
  apply (checkWebGPUCapabilities_estimate 8 sample_env sample_env).
  vm_compute. discriminate.
Defined.

End Page.

(** ** Reading the version out of a user agent *)

Section VersionParsing.

Lemma string_app_assoc (a b c : string) : (a +:+ b) +:+ c = a +:+ (b +:+ c).
Proof.
  induction a as [|x a IH]; [reflexivity|].
  change (String x ((a +:+ b) +:+ c) = String x (a +:+ (b +:+ c))).
  now rewrite IH.
Qed.

Lemma string_app_empty_r (a : string) : a +:+ "" = a.
Proof.
  induction a as [|x a IH]; [reflexivity|].
  change (String x (a +:+ "") = String x a). now rewrite IH.
Qed.

Lemma prefix_app (tag x : string) : String.prefix tag (tag +:+ x) = true.
Proof.
  induction tag as [|a tag IH]; simpl; [now destruct x|].
  destruct (ascii_dec a a); [exact IH | congruence].
Qed.

Lemma prefix_app_long (tag u y : string) :
  (String.length tag <= String.length u)%nat ->
  String.prefix tag (u +:+ y) = String.prefix tag u.
Proof.
  revert u. induction tag as [|a tag IH]; intros [|b u] Hlen; simpl in *;
    try reflexivity; try lia.
  - now destruct y.
  - destruct (ascii_dec a b); [apply IH; lia | reflexivity].
Qed.

Lemma drop_chars_app (n : nat) (u y : string) :
  (n <= String.length u)%nat ->
  JS.drop_chars n (u +:+ y) = JS.drop_chars n u +:+ y.
Proof.
  revert u. induction n as [|n IH]; intros [|b u] Hlen; simpl in *;
    try reflexivity; try lia.
  apply IH. lia.
Qed.

Lemma drop_chars_all (tag x : string) :
  JS.drop_chars (String.length tag) (tag +:+ x) = x.
Proof. induction tag as [|a tag IH]; simpl; [reflexivity | exact IH]. Qed.

Lemma drop_chars_nonempty (n : nat) (u : string) :
  (n < String.length u)%nat -> JS.drop_chars n u <> "".
Proof.
  revert u. induction n as [|n IH]; intros [|b u] Hlen; simpl in *;
    try lia; try discriminate.
  apply IH. lia.
Qed.

Lemma take_digits_stuck (w y : string) :
  w <> "" -> JS.take_digits w = "" -> JS.take_digits (w +:+ y) = "".
Proof.
  destruct w as [|a w]; [congruence|]. simpl.
  destruct (JS.is_digit a); [discriminate | reflexivity].
Qed.

Lemma match_digits_after_unfold (tag s : string) :
  JS.match_digits_after tag s
  = match (if String.prefix tag s
           then JS.take_digits (JS.drop_chars (String.length tag) s)
           else "") with
    | String a b => Some (String a b)
    | EmptyString =>
        match s with
        | EmptyString => None
        | String _ s' => JS.match_digits_after tag s'
        end
    end.
Proof.
  destruct s; cbn [JS.match_digits_after];
    try match goal with |- context [if ?b then _ else _] => destruct b end;
    try match goal with
      | |- context [JS.take_digits ?x] => destruct (JS.take_digits x)
      end; reflexivity.
Qed.

(** No match before the pattern: the search moves on to it. *)
Lemma no_match_extends (tag pre y : string) :
  JS.match_digits_after tag (pre +:+ tag) = None ->
  JS.match_digits_after tag (pre +:+ (tag +:+ y))
  = JS.match_digits_after tag (tag +:+ y).
Proof.
  induction pre as [|c pre IH]; [reflexivity|].
  intros Hnone. rewrite match_digits_after_unfold in Hnone.
  assert (Hlen : (String.length tag < String.length (String c pre +:+ tag))%nat)
    by (rewrite string_length_app; simpl; lia).
  assert (Hnext : JS.match_digits_after tag (pre +:+ tag) = None).
  { destruct (if String.prefix tag (String c pre +:+ tag)
              then JS.take_digits
                     (JS.drop_chars (String.length tag) (String c pre +:+ tag))
              else ""); [exact Hnone | discriminate Hnone]. }
  assert (Hhere :
    (if String.prefix tag ((String c pre +:+ tag) +:+ y)
     then JS.take_digits
            (JS.drop_chars (String.length tag) ((String c pre +:+ tag) +:+ y))
     else "") = "").
  { rewrite prefix_app_long by lia. rewrite drop_chars_app by lia.
    destruct (String.prefix tag (String c pre +:+ tag)); [|reflexivity].
    apply take_digits_stuck; [now apply drop_chars_nonempty|].
    destruct (JS.take_digits
                (JS.drop_chars (String.length tag) (String c pre +:+ tag)));
      [reflexivity | discriminate Hnone]. }
  rewrite <- (string_app_assoc (String c pre) tag y).
  rewrite match_digits_after_unfold, Hhere.
  change ((String c pre +:+ tag) +:+ y) with (String c ((pre +:+ tag) +:+ y)).
  cbv iota. rewrite string_app_assoc. apply IH. exact Hnext.
Qed.

Lemma match_at_start (tag x : string) :
  JS.take_digits x <> "" ->
  JS.match_digits_after tag (tag +:+ x) = Some (JS.take_digits x).
Proof.
  intros Hx. rewrite match_digits_after_unfold.
  rewrite prefix_app, drop_chars_all.
  now destruct (JS.take_digits x).
Qed.

Lemma pretty_digit (k : N) :
  (k < 10)%N ->
  JS.is_digit (pretty_N_char k) = true /\
  (N_of_ascii (pretty_N_char k) - 48 = k)%N.
Proof.
  intros Hk.
  assert (k = 0 \/ k = 1 \/ k = 2 \/ k = 3 \/ k = 4 \/ k = 5 \/ k = 6
          \/ k = 7 \/ k = 8 \/ k = 9)%N as Hcases by lia.
  repeat (destruct Hcases as [-> | Hcases]; [split; reflexivity|]).
  subst k. split; reflexivity.
Qed.

(** The digits [pretty_N_go] writes in front of a string, read back. *)
Lemma pretty_N_go_digits (x : N) :
  exists (d : string) (w : N),
    ((0 < x)%N -> d <> "") /\
    (forall s, pretty_N_go x s = d +:+ s) /\
    (forall t, JS.take_digits (d +:+ t) = d +:+ JS.take_digits t) /\
    (forall acc t, JS.parse_digits acc (d +:+ t)
                   = JS.parse_digits (acc * w + x)%N t).
Proof.
  induction (N.lt_wf_0 x) as [x _ IH].
  destruct (N.eq_dec x 0%N) as [->|Hx].
  - exists "", 1%N. repeat split; try reflexivity; try lia.
    intros acc t. simpl. f_equal. lia.
  - assert (Hpos : (0 < x)%N) by lia.
    destruct (IH (x / 10)%N) as (d & w & _ & Hgo & Htake & Hparse).
    { apply N.div_lt; lia. }
    destruct (pretty_digit (x mod 10)%N) as [Hdigit Hvalue].
    { apply N.mod_lt. lia. }
    exists (d +:+ String (pretty_N_char (x mod 10)) ""), (w * 10)%N.
    repeat split.
    + intros _ H. apply (f_equal String.length) in H.
      rewrite string_length_app in H. simpl in H. lia.
    + intros s. rewrite pretty_N_go_step by exact Hpos.
      rewrite Hgo. now rewrite string_app_assoc.
    + intros t. rewrite !string_app_assoc. simpl.
      rewrite Htake. simpl. now rewrite Hdigit.
    + intros acc t. rewrite string_app_assoc. simpl.
      rewrite Hparse. simpl. rewrite Hdigit, Hvalue. f_equal.
      pose proof (N.div_mod x 10 ltac:(lia)). lia.
Qed.

Lemma pretty_N_read_back (v : N) :
  pretty v <> "" /\
  (forall t, JS.take_digits (pretty v +:+ t) = pretty v +:+ JS.take_digits t) /\
  JS.parse_digits 0%N (pretty v) = v.
Proof.
  unfold pretty, pretty_N. destruct (decide (v = 0%N)) as [->|Hv].
  - repeat split; try reflexivity. discriminate.
  - destruct (pretty_N_go_digits v) as (d & w & Hne & Hgo & Htake & Hparse).
    rewrite Hgo, string_app_empty_r. split; [apply Hne; lia|].
    split; [exact Htake|].
    rewrite <- (string_app_empty_r d) at 1.
    rewrite Hparse. simpl. lia.
Qed.

Lemma includes_app (pre s sub : string) :
  JS.includes s sub = true -> JS.includes (pre +:+ s) sub = true.
Proof.
  intros Hs. induction pre as [|c pre IH]; [exact Hs|].
  simpl. rewrite IH. apply orb_true_r.
Qed.

Lemma recorded_errors_verdict (env : Environment) (c : Capabilities) :
  recorded_errors env c = verdict (navigator_userAgent env).
Proof.
  unfold recorded_errors. rewrite checkBrowserCompatibility_errors.
  apply drop_app_length.
Qed.

Lemma written_version_parsed (tag pre rest : string) (v : N) :
  JS.match_digits_after tag (pre +:+ tag) = None ->
  JS.take_digits rest = "" ->
  JS.match_digits_after tag (pre +:+ (tag +:+ (pretty v +:+ rest)))
  = Some (pretty v) /\
  JS.parse_digits 0%N (pretty v) = v.
Proof.
  intros Hpre Hrest.
  destruct (pretty_N_read_back v) as (Hne & Htake & Hparse).
  rewrite (no_match_extends tag pre _ Hpre).
  assert (Hdigits : JS.take_digits (pretty v +:+ rest) = pretty v).
  { rewrite Htake, Hrest. apply string_app_empty_r. }
  rewrite match_at_start by (rewrite Hdigits; exact Hne).
  now rewrite Hdigits.
Qed.

(** X19: a version written in decimal after the pattern is read back as
    the Number nearest to it: if the pattern followed by a digit does not
    occur earlier in the user agent and the text after the number does
    not start with a digit, the regular expression captures the number's
    digits, and the version the check parses is the number rounded to a
    double.  Below 2^53 that is the number itself, which the browser info
    then prints with the same digits. *)
Theorem version_read_back (tag pre rest : string) (v : N) :
  JS.match_digits_after tag (pre +:+ tag) = None ->
  JS.take_digits rest = "" ->
  JS.match_digits_after tag (pre +:+ (tag +:+ (pretty v +:+ rest)))
  = Some (pretty v) /\
  version_after tag (pre +:+ (tag +:+ (pretty v +:+ rest))) = JS.to_double v /\
  ((v < 2 ^ 53)%N ->
   version_after tag (pre +:+ (tag +:+ (pretty v +:+ rest))) = JS.Finite v /\
   JS.Number_toString
     (version_after tag (pre +:+ (tag +:+ (pretty v +:+ rest))))
   = pretty v).
Proof.
  intros Hpre Hrest.
  destruct (written_version_parsed tag pre rest v Hpre Hrest) as [Hm Hp].
  split; [exact Hm|].
  assert (Hv : version_after tag (pre +:+ (tag +:+ (pretty v +:+ rest)))
               = JS.to_double v).
  { unfold version_after, JS.parseInt. now rewrite Hm, Hp. }
  split; [exact Hv|]. intros Hsmall. rewrite Hv.
  unfold JS.to_double, JS.Number_toString.
  destruct (N.ltb_spec v (2 ^ 53)) as [_|Hge]; [|lia].
  destruct (N.ltb_spec v (2 ^ 53)) as [_|Hge]; [|lia].
  split; reflexivity.
Qed.

Lemma version_read_back_witness :
  version_after "Chrome/"
    ("Mozilla/5.0 (X11; Linux x86_64) AppleWebKit/537.36 "
       +:+ ("Chrome/" +:+ (pretty 9007199254740993%N +:+ ".0.0.0 Safari/537.36")))
  = JS.Finite 9007199254740992.
Proof.
  destruct (version_read_back "Chrome/"
              "Mozilla/5.0 (X11; Linux x86_64) AppleWebKit/537.36 "
              ".0.0.0 Safari/537.36" 9007199254740993 eq_refl eq_refl)
    as (_ & H & _).
  rewrite H. vm_compute. reflexivity.
Defined.

(** X20: for a user agent of a recognized family that carries the version
    [v] in decimal after the family's pattern, the check records
    BROWSER_VERSION_TOO_OLD exactly when [v < 113] for Chrome, Firefox and
    Edge, and exactly when [v <= 16] for Safari: only the integer part of
    the version is read, so a Safari 16.4 or later 16.x is recorded as too
    old. *)
Theorem written_version_verdict
    (env : Environment) (c : Capabilities)
    (f : RuntimeFamily) (pre rest : string) (v : N) :
  recognized_family (navigator_userAgent env) = Some f ->
  navigator_userAgent env
  = pre +:+ (version_pattern f +:+ (pretty v +:+ rest)) ->
  JS.match_digits_after (version_pattern f) (pre +:+ version_pattern f) = None ->
  JS.take_digits rest = "" ->
  parsed_version f (navigator_userAgent env) = v /\
  ("BROWSER_VERSION_TOO_OLD" ∈ recorded_errors env c <->
   match f with
   | Safari => (v <= 16)%N
   | Chrome | Firefox | Edge => (v < 113)%N
   end).
Proof.
  intros Hf Hua Hpre Hrest.
  assert (Hv : parsed_version f (navigator_userAgent env) = v).
  { rewrite Hua. unfold parsed_version.
    destruct (written_version_parsed _ _ _ v Hpre Hrest) as [-> Hp].
    exact Hp. }
  split; [exact Hv|].
  rewrite recorded_errors_verdict. unfold verdict. rewrite Hf, Hv.
  assert (Hlt : JS.ltQ (as_Q v) (minimum_version f) = true <->
                match f with
                | Safari => (v <= 16)%N
                | Chrome | Firefox | Edge => (v < 113)%N
                end).
  { rewrite ltQ_spec. unfold as_Q.
    destruct f; cbn [minimum_version];
      try (change 113%Q with (inject_Z 113); rewrite <- Zlt_Qlt; lia).
    unfold Qlt. cbn [Qnum Qden inject_Z]. lia. }
  destruct (JS.ltQ (as_Q v) (minimum_version f)).
  - rewrite list_elem_of_singleton. tauto.
  - rewrite elem_of_nil. split; [tauto|]. intros H.
    apply Hlt in H. discriminate H.
Qed.

Lemma written_version_verdict_witness :
  "BROWSER_VERSION_TOO_OLD"
    ∈ recorded_errors
        {| window_isSecureContext := true;
           navigator_userAgent :=
             "Mozilla/5.0 (Macintosh; Intel Mac OS X 10_15_7) AppleWebKit/605.1.15 (KHTML, like Gecko) "
               +:+ ("Version/" +:+ (pretty 16%N +:+ ".5 Safari/605.1.15"));
           navigator_gpu := None |} initial.
Proof.
  apply (written_version_verdict
           {| window_isSecureContext := true;
              navigator_userAgent :=
                "Mozilla/5.0 (Macintosh; Intel Mac OS X 10_15_7) AppleWebKit/605.1.15 (KHTML, like Gecko) "
                  +:+ ("Version/" +:+ (pretty 16%N +:+ ".5 Safari/605.1.15"));
              navigator_gpu := None |} initial Safari
           "Mozilla/5.0 (Macintosh; Intel Mac OS X 10_15_7) AppleWebKit/605.1.15 (KHTML, like Gecko) "
           ".5 Safari/605.1.15" 16);
    reflexivity.
Defined.

End VersionParsing.
